(** * BTC-USDT-Track: the fetch / normalise / aggregate / rank pipeline

    A shallow embedding of [src/BTC_Tracking.py] (ID-based pagination) and of
    [src/test.py] (time-based pagination), and the properties of the
    specification settled against it.

    - Python [int] is [Z]; Python [float] is the kernel's binary64 [float];
      Python [str] is [string].
    - A raised exception is the [Raise] branch of [result].
    - The exchange is a function from the number of requests already made and
      the query parameters to an HTTP outcome.
    - The [while True] loop of [get_trades] is a step function iterated under
      a fuel bound. *)

From Stdlib Require Import ZArith QArith List String Ascii Bool Lia.
From Stdlib Require Import Floats Uint63 Sorted Permutation.
Import ListNotations.

Local Open Scope string_scope.
Local Open Scope list_scope.
Local Open Scope Z_scope.

(** ** Exceptions *)

Inductive PyError : Type :=
| KeyError (labels : list string)
| ValueError (text : string)
| RequestException.

Inductive result (A : Type) : Type :=
| Ok (value : A)
| Raise (e : PyError).

Arguments Ok {A} value.
Arguments Raise {A} e.

Definition bind {A B : Type} (c : result A) (k : A -> result B) : result B :=
  match c with
  | Ok a => k a
  | Raise e => Raise e
  end.

Notation "x <- c ;; k" := (bind c (fun x => k))
  (at level 61, c at next level, right associativity).

(** ** Python's [float(str)]

    The numerals modelled are the ASCII ones: optional surrounding white
    space, an optional sign, then [inf], [infinity] or [nan] in any letter
    case, or decimal digits with an optional fraction and an optional
    exponent.  The result is the binary64 number nearest to the numeral, ties
    to even.  Digit-group underscores and non-ASCII digits or blanks, which
    [float] also reads, are not modelled: such a string is answered like a
    malformed one. *)

Module PyFloat.

Definition is_space (c : ascii) : bool :=
  let n := nat_of_ascii c in
  (Nat.eqb n 32 || (Nat.leb 9 n && Nat.leb n 13) || (Nat.leb 28 n && Nat.leb n 31))%bool.

Definition digit_value (c : ascii) : option Z :=
  let n := nat_of_ascii c in
  if (Nat.leb 48 n && Nat.leb n 57)%bool then Some (Z.of_nat (n - 48)) else None.

Definition lower (c : ascii) : ascii :=
  let n := nat_of_ascii c in
  if (Nat.leb 65 n && Nat.leb n 90)%bool then ascii_of_nat (n + 32) else c.

Fixpoint lstrip (s : list ascii) : list ascii :=
  match s with
  | c :: s' => if is_space c then lstrip s' else s
  | [] => []
  end.

Definition strip (s : list ascii) : list ascii :=
  rev (lstrip (rev (lstrip s))).

(** [digits s acc n] reads the longest prefix of decimal digits of [s]: the
    number they spell after [acc], how many there are, and the rest. *)
Fixpoint digits (s : list ascii) (acc : Z) (n : nat) : Z * nat * list ascii :=
  match s with
  | c :: s' =>
      match digit_value c with
      | Some d => digits s' (10 * acc + d) (S n)
      | None => (acc, n, s)
      end
  | [] => (acc, n, [])
  end.

Definition sign (s : list ascii) : bool * list ascii :=
  match s with
  | "-"%char :: s' => (true, s')
  | "+"%char :: s' => (false, s')
  | _ => (false, s)
  end.

(** The exponent part: [None] when malformed, [Some 0] when absent. *)
Definition exponent (s : list ascii) : option Z :=
  match s with
  | [] => Some 0
  | c :: s' =>
      if (Ascii.eqb c "e" || Ascii.eqb c "E")%bool then
        let (neg, s'') := sign s' in
        match digits s'' 0 0 with
        | (e, S _, []) => Some (if neg then (- e)%Z else e)
        | _ => None
        end
      else None
  end.

(** A finite numeral without its sign: the pair [(m, e)] stands for
    [m * 10^e]. *)
Definition decimal (s : list ascii) : option (Z * Z) :=
  let '(ip, ni, s1) := digits s 0 0 in
  let '(m, nf, s2) :=
    match s1 with
    | "."%char :: s1' => digits s1' ip 0
    | _ => (ip, 0%nat, s1)
    end in
  match (ni + nf)%nat with
  | O => None
  | S _ =>
      match exponent s2 with
      | Some e => Some (m, e - Z.of_nat nf)
      | None => None
      end
  end.

(** The binary64 number nearest to [n / d] for positive [n] and [d], ties to
    even; beyond the largest finite number it is [infinity]. *)
Definition round_nearest_even (n d : Z) : float :=
  let e0 := Z.log2 n - Z.log2 d in
  let above := if 0 <=? e0 then d * 2 ^ e0 <=? n else d <=? n * 2 ^ (- e0) in
  let e := if above then e0 else e0 - 1 in
  let ex := Z.max (e - 52) (-1074) in
  let num := if 0 <=? ex then n else n * 2 ^ (- ex) in
  let den := if 0 <=? ex then d * 2 ^ ex else d in
  let q := num / den in
  let r := num mod den in
  let q' := if ((den <? 2 * r) || ((den =? 2 * r) && Z.odd q))%bool then q + 1 else q in
  Z.ldexp (of_uint63 (Uint63.of_Z q')) ex.

Definition of_decimal (m e : Z) : float :=
  if m =? 0 then zero
  else if 0 <=? e then round_nearest_even (m * 10 ^ e) 1
  else round_nearest_even m (10 ^ (- e)).

Definition special (s : list ascii) : option float :=
  let w := string_of_list_ascii (map lower s) in
  if (String.eqb w "inf" || String.eqb w "infinity")%bool then Some infinity
  else if String.eqb w "nan" then Some nan
  else None.

Definition parse (s : string) : option float :=
  let (neg, body) := sign (strip (list_ascii_of_string s)) in
  let magnitude :=
    match special body with
    | Some f => Some f
    | None =>
        match decimal body with
        | Some (m, e) => Some (of_decimal m e)
        | None => None
        end
    end in
  match magnitude with
  | Some f => Some (if neg then (- f)%float else f)
  | None => None
  end.

(** The rational number a finite numeral spells, before any rounding. *)
Definition exact (s : string) : option Q :=
  let (neg, body) := sign (strip (list_ascii_of_string s)) in
  match decimal body with
  | Some (m, e) =>
      let v := if 0 <=? e then inject_Z (m * 10 ^ e)
               else Qmake m (Z.to_pos (10 ^ (- e))) in
      Some (if neg then Qopp v else v)
  | None => None
  end.

End PyFloat.

(** The rational number a finite binary64 number stands for. *)
Definition float_value (f : float) : option Q :=
  match Prim2SF f with
  | S754_zero _ => Some (inject_Z 0)
  | S754_finite s m e =>
      let n := if s then Z.neg m else Z.pos m in
      Some (if 0 <=? e then inject_Z (n * 2 ^ e) else Qmake n (Z.to_pos (2 ^ (- e))))
  | _ => None
  end.

Definition py_float (s : string) : result float :=
  match PyFloat.parse s with
  | Some f => Ok f
  | None => Raise (ValueError s)
  end.

(** ** Data model *)

(** One object of the [aggTrades] response, by its JSON keys. *)
Record RawTrade : Type := mkRawTrade {
  raw_a : Z;        (* "a": aggregate trade id *)
  raw_p : string;   (* "p": price *)
  raw_q : string;   (* "q": quantity *)
  raw_T : Z;        (* "T": trade time, microseconds *)
  raw_m : bool      (* "m": was the buyer the maker? *)
}.

Inductive Side : Type := BUY | SELL.

Definition side_label (s : Side) : string :=
  match s with
  | BUY => "BUY"
  | SELL => "SELL"
  end.

(** One record built by [process_trades], and one row of the frames made from
    such records.  The time column is labelled ["T"] in [BTC_Tracking.py] and
    ["timestamp_us"] in [test.py]; the label lives in the frame. *)
Record Row : Type := mkRow {
  row_T : Z;
  amount_btc : float;
  amount_usdt : float;
  side : Side
}.

(** A [pandas.DataFrame]: its column labels and its rows, in order. *)
Record DataFrame : Type := mkDataFrame {
  columns : list string;
  rows : list Row
}.

(** [pd.DataFrame(records)] for a list of dicts that all carry the keys
    [labels]: the columns are the keys met, so an empty list gives a frame
    with no column at all. *)
Definition DataFrame_of_records (labels : list string) (records : list Row) : DataFrame :=
  match records with
  | [] => mkDataFrame [] []
  | _ => mkDataFrame labels records
  end.

(** ** Decidable equalities and the order of the grouping keys *)

Definition Side_eqb (s1 s2 : Side) : bool :=
  match s1, s2 with
  | BUY, BUY | SELL, SELL => true
  | _, _ => false
  end.

(** The order of the labels as strings: ["BUY"] sorts before ["SELL"]. *)
Definition Side_compare (s1 s2 : Side) : comparison :=
  match s1, s2 with
  | BUY, BUY | SELL, SELL => Eq
  | BUY, SELL => Lt
  | SELL, BUY => Gt
  end.

Definition Key : Type := (Z * Side)%type.

Definition key_of (r : Row) : Key := (row_T r, side r).

Definition Key_compare (k1 k2 : Key) : comparison :=
  match Z.compare (fst k1) (fst k2) with
  | Eq => Side_compare (snd k1) (snd k2)
  | c => c
  end.

Definition Key_eqb (k1 k2 : Key) : bool :=
  match Key_compare k1 k2 with
  | Eq => true
  | _ => false
  end.

(** ** The pandas operations the program calls *)

Module Pandas.

(** The labels of [wanted] that are no column of [df]. *)
Definition missing (wanted : list string) (df : DataFrame) : list string :=
  filter (fun l => negb (existsb (String.eqb l) (columns df))) wanted.

(** *** [groupby([time, 'side']).agg({'amount_btc': 'sum', 'amount_usdt': 'sum'})]

    The grouped sum runs once over the rows and keeps one accumulator per
    group and column.  A NaN entry is skipped, and the running sum is
    compensated (Kahan), the compensation being reset when it is NaN, as in
    pandas' [group_sum] kernel. *)

Record Acc : Type := mkAcc {
  sumx : float;
  compensation : float
}.

Definition acc0 : Acc := mkAcc zero zero.

Definition acc_add (acc : Acc) (val : float) : Acc :=
  if is_nan val then acc
  else
    let y := (val - compensation acc)%float in
    let t := (sumx acc + y)%float in
    let c := (t - sumx acc - y)%float in
    mkAcc t (if is_nan c then zero else c).

(** The ['sum'] of one column of one group, its entries in row order. *)
Definition col_sum (vals : list float) : float :=
  sumx (fold_left acc_add vals acc0).

Record Group : Type := mkGroup {
  group_key : Key;
  acc_btc : Acc;
  acc_usdt : Acc
}.

Definition group_new (r : Row) : Group :=
  mkGroup (key_of r) (acc_add acc0 (amount_btc r)) (acc_add acc0 (amount_usdt r)).

Definition group_update (g : Group) (r : Row) : Group :=
  mkGroup (group_key g) (acc_add (acc_btc g) (amount_btc r))
          (acc_add (acc_usdt g) (amount_usdt r)).

(** The groups are kept in ascending key order ([sort=True], the default). *)
Fixpoint group_add (r : Row) (groups : list Group) : list Group :=
  match groups with
  | [] => [group_new r]
  | g :: rest =>
      match Key_compare (key_of r) (group_key g) with
      | Lt => group_new r :: groups
      | Eq => group_update g r :: rest
      | Gt => g :: group_add r rest
      end
  end.

Definition group_rows (rs : list Row) : list Group :=
  fold_left (fun groups r => group_add r groups) rs [].

(** [reset_index()]: the key of a group becomes two ordinary columns again. *)
Definition group_row (g : Group) : Row :=
  mkRow (fst (group_key g)) (sumx (acc_btc g)) (sumx (acc_usdt g)) (snd (group_key g)).

(** Grouping by a label that is no column raises [KeyError] on the first
    such label; so does aggregating a column that does not exist. *)
Definition groupby_sum (time_label : string) (df : DataFrame) : result DataFrame :=
  match missing [time_label; "side"] df with
  | l :: _ => Raise (KeyError [l])
  | [] =>
      match missing ["amount_btc"; "amount_usdt"] df with
      | [] => Ok (mkDataFrame [time_label; "side"; "amount_btc"; "amount_usdt"]
                              (map group_row (group_rows (rows df))))
      | ls => Raise (KeyError ls)
      end
  end.

(** *** [df[df.duplicated(subset=[time, 'side'], keep=False)]]

    On a frame without rows [duplicated] answers at once, with an empty
    mask, before it looks at the labels; on any other frame a label of the
    subset that is no column raises [KeyError]. *)

Definition duplicated (time_label : string) (df : DataFrame) : result DataFrame :=
  match rows df with
  | [] => Ok (mkDataFrame (columns df) [])
  | _ =>
      match missing [time_label; "side"] df with
      | [] =>
          Ok (mkDataFrame (columns df)
                (filter (fun r =>
                           Nat.ltb 1 (List.length
                                        (filter (fun r' => Key_eqb (key_of r') (key_of r))
                                                (rows df))))
                        (rows df)))
      | ls => Raise (KeyError ls)
      end
  end.

(** *** [nlargest(n, column)], [keep='first']

    The rows in descending order of the column, rows of equal value in their
    original order, rows whose value is NaN last; the first [n] of them. *)

Fixpoint insert_desc (col : Row -> float) (r : Row) (sorted : list Row) : list Row :=
  match sorted with
  | [] => [r]
  | s :: rest =>
      if (col r <? col s)%float then s :: insert_desc col r rest
      else r :: sorted
  end.

Definition sort_desc (col : Row -> float) (rs : list Row) : list Row :=
  fold_right (insert_desc col) [] rs.

Definition nlargest (n : Z) (col : Row -> float) (df : DataFrame) : DataFrame :=
  if n <=? 0 then mkDataFrame (columns df) []
  else
    let valued := filter (fun r => negb (is_nan (col r))) (rows df) in
    let nans := filter (fun r => is_nan (col r)) (rows df) in
    mkDataFrame (columns df) (firstn (Z.to_nat n) (sort_desc col valued ++ nans)).

End Pandas.

(** ** The reporter of [main]

    The table that ends [main]: the header, the rule, one line per row.  How
    one row is rounded and laid out ([round(x, 3)], the format
    specifications) is Python's float formatting, taken as a parameter. *)

Section Reporter.

Variable format_row : Row -> string.

Fixpoint repeat_string (s : string) (n : nat) : string :=
  match n with
  | O => EmptyString
  | S n' => (s ++ repeat_string s n')%string
  end.

Definition rule : string := repeat_string "-" 60.

Definition report (header : string) (largest_trades : DataFrame) : list string :=
  header :: rule :: map format_row (rows largest_trades).

End Reporter.

(** ** The exchange and the fetch loop *)

(** The query parameters of one [GET /aggTrades]; a key that the request
    does not carry is [None]. *)
Record Params : Type := mkParams {
  symbol : string;
  startTime : option Z;
  endTime : option Z;
  fromId : option Z;
  limit : Z
}.

(** What [requests.get], [raise_for_status] and [json] come to: an exception
    of the [RequestException] family, or the decoded array of trades. *)
Inductive Response : Type :=
| RequestError
| Json (data : list RawTrade).

(** The exchange answers the request made after [i] earlier ones. *)
Definition Exchange : Type := nat -> Params -> Response.

(** [data[-1]] of a page that is not empty. *)
Fixpoint last_trade (data : list RawTrade) : option RawTrade :=
  match data with
  | [] => None
  | [t] => Some t
  | _ :: data' => last_trade data'
  end.

(** Where the [while True] loop stands: about to send a request, left by a
    [break], or left by the [except] clause. *)
Inductive Loop : Type :=
| Requesting (params : Params) (trades : list RawTrade) (request_count : nat)
| Finished (trades : list RawTrade)
| Failed.

Fixpoint run (body : Params -> list RawTrade -> nat -> Loop) (fuel : nat) (st : Loop) : Loop :=
  match fuel, st with
  | S fuel', Requesting params trades request_count =>
      run body fuel' (body params trades request_count)
  | _, _ => st
  end.

Definition in_window (start_time end_time : Z) (trade : RawTrade) : bool :=
  ((start_time <=? raw_T trade) && (raw_T trade <=? end_time))%bool.

(** ** The loop of [process_trades]

    [for trade in trades: processed_trades.append(record)], the record being
    what [body] builds from the trade; an exception raised on the way leaves
    the loop. *)
Fixpoint for_trades (body : RawTrade -> result Row) (trades : list RawTrade)
    (processed_trades : list Row) : result (list Row) :=
  match trades with
  | [] => Ok processed_trades
  | trade :: trades' =>
      record <- body trade ;;
      for_trades body trades' (processed_trades ++ [record])
  end.

(** ** [src/BTC_Tracking.py] *)

Module BTC_Tracking.

Definition loop_body (api : Exchange) (symbol : string) (end_time : Z)
    (params : Params) (trades : list RawTrade) (request_count : nat) : Loop :=
  match api request_count params with
  | RequestError => Failed
  | Json data =>
      match last_trade data with
      | None => Finished trades
      | Some last =>
          let trades := trades ++ data in
          let request_count := S request_count in
          if end_time <=? raw_T last then Finished trades
          else
            let params := mkParams symbol None None (Some (raw_a last + 1)) 1000 in
            Requesting params trades request_count
      end
  end.

Definition first_params (symbol : string) (start_time : Z) : Params :=
  mkParams symbol (Some start_time) None None 1000.

Definition fetch (api : Exchange) (fuel : nat) (symbol : string) (start_time end_time : Z) : Loop :=
  run (loop_body api symbol end_time) fuel (Requesting (first_params symbol start_time) [] 0).

(** [None]: the loop was still running when the fuel ran out. *)
Definition get_trades (api : Exchange) (fuel : nat) (symbol : string)
    (start_time end_time : Z) : option (list RawTrade) :=
  match fetch api fuel symbol start_time end_time with
  | Requesting _ _ _ => None
  | Failed => Some []
  | Finished trades => Some (filter (in_window start_time end_time) trades)
  end.

Definition process_trade (trade : RawTrade) : result Row :=
  let side := if raw_m trade then SELL else BUY in
  qty <- py_float (raw_q trade) ;;
  qty' <- py_float (raw_q trade) ;;
  price <- py_float (raw_p trade) ;;
  Ok (mkRow (raw_T trade) qty (qty' * price)%float side).

Definition labels : list string := ["T"; "amount_btc"; "amount_usdt"; "side"].

Definition process_trades (trades : list RawTrade) : result DataFrame :=
  processed_trades <- for_trades process_trade trades [] ;;
  Ok (DataFrame_of_records labels processed_trades).

Definition find_largest_trades (df : DataFrame) (n : Z) : result DataFrame :=
  grouped <- Pandas.groupby_sum "T" df ;;
  Ok (Pandas.nlargest n amount_usdt grouped).

Definition start_time : Z := 1737392400000 * 1000.
Definition end_time : Z := 1737478800000 * 1000.

Definition header : string :=
  "Timestamp (μs)    Amount (BTC)    Amount (USDT)    Side".

Section Main.

Variable format_row : Row -> string.

(** [main] from the line after the fetch on. *)
Definition main_after_fetch (trades : list RawTrade) : result (list string) :=
  df <- process_trades trades ;;
  largest_trades <- find_largest_trades df 5 ;;
  Ok (report format_row header largest_trades).

Definition main (api : Exchange) (fuel : nat) : option (result (list string)) :=
  match get_trades api fuel "BTCUSDT" start_time end_time with
  | Some trades => Some (main_after_fetch trades)
  | None => None
  end.

End Main.

End BTC_Tracking.

(** ** [src/test.py] *)

Module test_py.

Definition loop_body (api : Exchange) (end_time : Z)
    (params : Params) (trades : list RawTrade) (request_count : nat) : Loop :=
  match api request_count params with
  | RequestError => Failed
  | Json data =>
      match last_trade data with
      | None => Finished trades
      | Some last =>
          let trades := trades ++ data in
          let request_count := S request_count in
          let params := mkParams (symbol params) (Some (raw_T last + 1)) (endTime params)
                                 (fromId params) (limit params) in
          if end_time <=? raw_T last + 1 then Finished trades
          else Requesting params trades request_count
      end
  end.

Definition first_params (symbol : string) (start_time end_time : Z) : Params :=
  mkParams symbol (Some start_time) (Some end_time) None 1000.

Definition fetch (api : Exchange) (fuel : nat) (symbol : string) (start_time end_time : Z) : Loop :=
  run (loop_body api end_time) fuel (Requesting (first_params symbol start_time end_time) [] 0).

Definition get_trades (api : Exchange) (fuel : nat) (symbol : string)
    (start_time end_time : Z) : option (list RawTrade) :=
  match fetch api fuel symbol start_time end_time with
  | Requesting _ _ _ => None
  | Failed => Some []
  | Finished trades => Some trades
  end.

Definition process_trade (trade : RawTrade) : result Row :=
  let side := if negb (raw_m trade) then BUY else SELL in
  qty <- py_float (raw_q trade) ;;
  qty' <- py_float (raw_q trade) ;;
  price <- py_float (raw_p trade) ;;
  Ok (mkRow (raw_T trade) qty (qty' * price)%float side).

Definition labels : list string := ["timestamp_us"; "amount_btc"; "amount_usdt"; "side"].

Definition process_trades (trades : list RawTrade) : result DataFrame :=
  processed_trades <- for_trades process_trade trades [] ;;
  Ok (DataFrame_of_records labels processed_trades).

Definition find_largest_trades (df : DataFrame) (n : Z) : result DataFrame :=
  duplicate_check <- Pandas.duplicated "timestamp_us" df ;;
  grouped <- Pandas.groupby_sum "timestamp_us" df ;;
  Ok (Pandas.nlargest n amount_usdt grouped).

Definition start_time : Z := 1737392400000 * 1000.
Definition end_time : Z := 1737478800000 * 1000.

Definition header : string :=
  "Timestamp (Î¼s)    Amount (BTC)    Amount (USDT)    Side".

Section Main.

Variable format_row : Row -> string.

Definition main_after_fetch (trades : list RawTrade) : result (list string) :=
  df <- process_trades trades ;;
  largest_trades <- find_largest_trades df 5 ;;
  Ok (report format_row header largest_trades).

Definition main (api : Exchange) (fuel : nat) : option (result (list string)) :=
  match get_trades api fuel "BTCUSDT" start_time end_time with
  | Some trades => Some (main_after_fetch trades)
  | None => None
  end.

End Main.

End test_py.

(** ** Notions the properties are stated with *)

(** The quantity and the price of the trade are numerals [float] reads. *)
Definition numeric (trade : RawTrade) : Prop :=
  PyFloat.parse (raw_q trade) <> None /\ PyFloat.parse (raw_p trade) <> None.

(** Python's [sum] over floats: additions from the left, starting at zero. *)
Definition float_sum (vals : list float) : float :=
  fold_left PrimFloat.add vals zero.

(** The two trades of the end-to-end scenario of the specification. *)
Definition scenario_trades : list RawTrade :=
  [ mkRawTrade 1 "50000.0" "1.0" 1000000 false;
    mkRawTrade 2 "50000.0" "0.5" 1000000 false ].

(** A third trade, sold by the taker one microsecond later. *)
Definition sample_trades : list RawTrade :=
  scenario_trades ++ [ mkRawTrade 3 "50000.5" "2.0" 1000001 true ].

Definition sample_records : list Row :=
  [ mkRow 1000000 1 50000 BUY; mkRow 1000000 0.5 25000 BUY; mkRow 1000001 2 100001 SELL ].

(** The record holds the numbers the strings spell and their product, all
    three without rounding: what exact decimal arithmetic would give. *)
Definition exact_record (trade : RawTrade) (record : Row) : Prop :=
  exists q p vq vn,
    PyFloat.exact (raw_q trade) = Some q /\ PyFloat.exact (raw_p trade) = Some p /\
    float_value (amount_btc record) = Some vq /\
    float_value (amount_usdt record) = Some vn /\
    Qeq vq q /\ Qeq vn (Qmult q p).

(** The rows of a frame that carry a given (time, side) key, in row order. *)
Definition members (k : Key) (rs : list Row) : list Row :=
  filter (fun r => Key_eqb (key_of r) k) rs.

Definition Side_eq_dec (s1 s2 : Side) : {s1 = s2} + {s1 <> s2}.
Proof. decide equality. Defined.

Definition Key_eq_dec (k1 k2 : Key) : {k1 = k2} + {k1 <> k2}.
Proof. decide equality; [apply Side_eq_dec | apply Z.eq_dec]. Defined.

(** How many distinct (time, side) pairs occur in the rows. *)
Definition distinct_groups (rs : list Row) : nat :=
  List.length (nodup Key_eq_dec (map key_of rs)).

Definition key_lt (k1 k2 : Key) : Prop := Key_compare k1 k2 = Lt.

(** The frame carries the four columns [find_largest_trades] reads. *)
Definition has_columns (time_label : string) (df : DataFrame) : Prop :=
  Pandas.missing [time_label; "side"] df = [] /\
  Pandas.missing ["amount_btc"; "amount_usdt"] df = [].

(** Records with ties: the groups (5, BUY) and (5, SELL) both sum to 7. *)
Definition tied_records : list Row :=
  [ mkRow 5 1 7 SELL; mkRow 2 1 7 BUY; mkRow 5 2 7 BUY;
    mkRow 2 1 3 SELL; mkRow 2 1 4 BUY; mkRow 9 1 1 BUY ].

Definition tied_frame : DataFrame := mkDataFrame ["T"; "amount_btc"; "amount_usdt"; "side"] tied_records.

(** ** What the fetch loop may rely on

    Contracts of the exchange, as hypotheses of the properties that need
    them, and an exchange that serves a fixed history, to run them on. *)

(** A page asked for with [fromId] holds no trade below that id. *)
Definition honours_fromId (api : Exchange) : Prop :=
  forall i params data c,
    api i params = Json data -> fromId params = Some c ->
    Forall (fun t => c <= raw_a t) data.

(** A page asked for with [startTime] holds no trade before that time. *)
Definition honours_startTime (api : Exchange) : Prop :=
  forall i params data s,
    api i params = Json data -> startTime params = Some s ->
    Forall (fun t => s <= raw_T t) data.

(** A page asked for with [endTime] holds no trade after that time. *)
Definition honours_endTime (api : Exchange) : Prop :=
  forall i params data e,
    api i params = Json data -> endTime params = Some e ->
    Forall (fun t => raw_T t <= e) data.

(** The loop has been left. *)
Definition stopped (st : Loop) : Prop :=
  match st with
  | Requesting _ _ _ => False
  | _ => True
  end.

(** Does the trade answer the query? *)
Definition matches (params : Params) (t : RawTrade) : bool :=
  (match fromId params with Some c => c <=? raw_a t | None => true end &&
   match startTime params with Some s => s <=? raw_T t | None => true end &&
   match endTime params with Some e => raw_T t <=? e | None => true end)%bool.

(** An exchange that holds the trades [history] and answers every request
    with the first [limit] of them that match. *)
Definition serve (history : list RawTrade) : Exchange :=
  fun _ params => Json (firstn (Z.to_nat (limit params)) (filter (matches params) history)).

(** The exchange [api], except that the request sent after [k] others
    fails. *)
Definition failing_at (k : nat) (api : Exchange) : Exchange :=
  fun i params => if Nat.eqb i k then RequestError else api i params.

(** A trade one microsecond before the end of the window [0, 10], and an
    exchange whose every page is that trade. *)
Definition boundary_trade : RawTrade := mkRawTrade 1 "50000.0" "1.0" 9 false.

Definition boundary_exchange : Exchange := fun _ _ => Json [boundary_trade].

(** Every page lists its trades by ascending id. *)
Definition pages_ascend_by_id (api : Exchange) : Prop :=
  forall i params data,
    api i params = Json data ->
    StronglySorted (fun t1 t2 => raw_a t1 < raw_a t2) data.

(** Every page lists its trades by time, the earlier first, none twice. *)
Definition pages_ascend_by_time (api : Exchange) : Prop :=
  forall i params data,
    api i params = Json data ->
    StronglySorted (fun t1 t2 => raw_T t1 <= raw_T t2) data /\ NoDup data.

(** The sum of the rational numbers that finite binary64 numbers stand
    for, without any rounding. *)
Definition exact_sum (vals : list float) : option Q :=
  fold_right (fun v total =>
                match float_value v, total with
                | Some q, Some t => Some (Qplus q t)
                | _, _ => None
                end)
             (Some (inject_Z 0)) vals.

(** Each amount of each grouped row stands for the exact total of the
    amounts of the input rows with the row's key. *)
Definition exact_totals (df grouped : DataFrame) : Prop :=
  forall row, In row (rows grouped) ->
    exists vb tb vu tu,
      float_value (amount_btc row) = Some vb /\
      exact_sum (map amount_btc (members (key_of row) (rows df))) = Some tb /\
      Qeq vb tb /\
      float_value (amount_usdt row) = Some vu /\
      exact_sum (map amount_usdt (members (key_of row) (rows df))) = Some tu /\
      Qeq vu tu.

(** Two trades of one microsecond and side whose quantities, 0.1 and 0.2,
    are no binary fractions. *)
Definition rounding_trades : list RawTrade :=
  [ mkRawTrade 1 "1.0" "0.1" 1000000 false;
    mkRawTrade 2 "1.0" "0.2" 1000000 false ].

Definition rounding_frame : DataFrame :=
  match BTC_Tracking.process_trades rounding_trades with
  | Ok df => df
  | Raise _ => mkDataFrame [] []
  end.

Definition rounding_grouped : DataFrame :=
  match Pandas.groupby_sum "T" rounding_frame with
  | Ok grouped => grouped
  | Raise _ => mkDataFrame [] []
  end.

(** A history of 1001 trades, all timed at microsecond 5. *)
Definition crowded_trade (i : nat) : RawTrade :=
  mkRawTrade (Z.of_nat i) "50000.0" "1.0" 5 false.

Definition crowded_history : list RawTrade := map crowded_trade (seq 1 1001).

(** The trades of the window are returned completely: the claim on the
    exchange [serve], for one variant of [get_trades]. *)
Definition returns_the_whole_window
    (get_trades : Exchange -> nat -> string -> Z -> Z -> option (list RawTrade)) : Prop :=
  forall history symbol start_time end_time fuel result,
    StronglySorted (fun t1 t2 => raw_a t1 < raw_a t2 /\ raw_T t1 <= raw_T t2) history ->
    get_trades (serve history) fuel symbol start_time end_time = Some result ->
    forall t, In t history -> start_time <= raw_T t <= end_time -> In t result.

(** A trade whose price is no numeral. *)
Definition malformed_trade : RawTrade :=
  mkRawTrade 4 "n/a" "1.0" 1000002 false.

(** A trade whose quantity and price are no binary fractions. *)
Definition inexact_trade : RawTrade :=
  mkRawTrade 7 "104250.42" "0.1" 1000000 false.

(** ** Notions of the proofs *)

Definition keys_ascending (groups : list Pandas.Group) : Prop :=
  StronglySorted (fun g1 g2 => key_lt (Pandas.group_key g1) (Pandas.group_key g2)) groups.

(** The accumulator a key has in a list of groups: that of its group, or
    the empty one when the key has no group yet. *)
Definition acc_at (proj : Pandas.Group -> Pandas.Acc) (k : Key)
    (groups : list Pandas.Group) : Pandas.Acc :=
  match find (fun g => Key_eqb (Pandas.group_key g) k) groups with
  | Some g => proj g
  | None => Pandas.acc0
  end.

Definition Rank : Type := (Z * Z * Z)%type.

Definition rank_lt (r1 r2 : Rank) : Prop :=
  let '(a1, b1, c1) := r1 in
  let '(a2, b2, c2) := r2 in
  a1 < a2 \/ (a1 = a2 /\ (b1 < b2 \/ (b1 = b2 /\ c1 < c2))).

Definition SFrank (x : spec_float) : option Rank :=
  match x with
  | S754_nan => None
  | S754_infinity true => Some (-2, 0, 0)
  | S754_infinity false => Some (2, 0, 0)
  | S754_zero _ => Some (0, 0, 0)
  | S754_finite true m e => Some (-1, - e, Z.neg m)
  | S754_finite false m e => Some (1, e, Z.pos m)
  end.

Definition rank (f : float) : option Rank := SFrank (Prim2SF f).

(** The whole frame in the order [nlargest] ranks it: the rows with a value
    in descending order, then the rows whose value is NaN. *)
Definition ranking (col : Row -> float) (rs : list Row) : list Row :=
  Pandas.sort_desc col (filter (fun r => negb (is_nan (col r))) rs)
  ++ filter (fun r => is_nan (col r)) rs.

(** [r1] may stand before [r2] in a descending column: the value of [r2] is
    at most that of [r1], or it is missing (NaN). *)
Definition ranked_before (col : Row -> float) (r1 r2 : Row) : Prop :=
  is_nan (col r2) = true \/
  (is_nan (col r1) = false /\ (col r2 <=? col r1)%float = true).

Definition rank_ge (col : Row -> float) (r1 r2 : Row) : Prop :=
  exists a b, rank (col r1) = Some a /\ rank (col r2) = Some b /\ (rank_lt b a \/ b = a).

(** The two files, each with the label of its time column. *)
Definition variant (find : DataFrame -> Z -> result DataFrame) (time_label : string) : Prop :=
  (find = BTC_Tracking.find_largest_trades /\ time_label = "T") \/
  (find = test_py.find_largest_trades /\ time_label = "timestamp_us").

(** * Properties *)

(** ** The normaliser *)

Lemma bind_Ok {A B : Type} (c : result A) (k : A -> result B) (b : B) :
  bind c k = Ok b <-> exists a, c = Ok a /\ k a = Ok b.
Proof.
  destruct c as [a | e]; simpl; split.
  - intros H. exists a. auto.
  - intros [a' [Ha Hk]]. injection Ha as <-. exact Hk.
  - discriminate.
  - intros [a' [Ha _]]. discriminate.
Qed.

Lemma rows_DataFrame_of_records (labels : list string) (records : list Row) :
  rows (DataFrame_of_records labels records) = records.
Proof. destruct records; reflexivity. Qed.

Lemma columns_DataFrame_of_records (labels : list string) (records : list Row) :
  records <> [] -> columns (DataFrame_of_records labels records) = labels.
Proof. destruct records; [congruence | reflexivity]. Qed.

Section ForTrades.

Variable body : RawTrade -> result Row.

Lemma for_trades_Ok (trades : list RawTrade) :
  forall processed res,
    for_trades body trades processed = Ok res <->
    exists records,
      res = processed ++ records /\
      Forall2 (fun trade record => body trade = Ok record) trades records.
Proof.
  induction trades as [| trade trades IH]; intros processed res; simpl.
  - split.
    + intros H. injection H as <-. exists []. rewrite app_nil_r. auto.
    + intros [records [-> H]]. inversion H. now rewrite app_nil_r.
  - rewrite bind_Ok. split.
    + intros [record [Hb Hrest]]. apply IH in Hrest as [records [-> HF]].
      exists (record :: records). rewrite <- app_assoc. auto.
    + intros [records [-> HF]]. inversion HF as [| ? record ? records' Hb HF']; subst.
      exists record. split; [exact Hb |]. apply IH. exists records'.
      rewrite <- app_assoc. auto.
Qed.

Lemma for_trades_returns (trades : list RawTrade) :
  Forall (fun trade => exists record, body trade = Ok record) trades ->
  forall processed, exists res, for_trades body trades processed = Ok res.
Proof.
  induction 1 as [| trade trades [record Hb] _ IH]; intros processed; simpl.
  - eauto.
  - rewrite Hb. simpl. apply IH.
Qed.

End ForTrades.

Lemma py_float_Ok (s : string) (f : float) :
  py_float s = Ok f <-> PyFloat.parse s = Some f.
Proof.
  unfold py_float. destruct (PyFloat.parse s); split; intros H;
    try discriminate; congruence.
Qed.

Lemma py_float_returns (s : string) :
  PyFloat.parse s <> None -> exists f, py_float s = Ok f.
Proof.
  unfold py_float. destruct (PyFloat.parse s) as [f |]; [eauto | congruence].
Qed.

(** What one pass of the loop body of [process_trades] builds, in both
    files. *)
Lemma process_trade_Ok (trade : RawTrade) (record : Row) :
  BTC_Tracking.process_trade trade = Ok record <->
  exists qty price,
    py_float (raw_q trade) = Ok qty /\ py_float (raw_p trade) = Ok price /\
    record = mkRow (raw_T trade) qty (qty * price)%float
                   (if raw_m trade then SELL else BUY).
Proof.
  unfold BTC_Tracking.process_trade. split.
  - intros H. apply bind_Ok in H as [qty [Hq H]].
    apply bind_Ok in H as [qty' [Hq' H]]. apply bind_Ok in H as [price [Hp H]].
    injection H as <-. exists qty, price. repeat split; auto. congruence.
  - intros [qty [price [Hq [Hp ->]]]]. rewrite Hq. simpl. rewrite Hp. reflexivity.
Qed.

Lemma test_py_process_trade (trade : RawTrade) :
  test_py.process_trade trade = BTC_Tracking.process_trade trade.
Proof.
  unfold test_py.process_trade, BTC_Tracking.process_trade.
  destruct (raw_m trade); reflexivity.
Qed.

Lemma process_trade_returns (trade : RawTrade) :
  numeric trade -> exists record, BTC_Tracking.process_trade trade = Ok record.
Proof.
  intros [Hq Hp]. apply py_float_returns in Hq as [qty Hq].
  apply py_float_returns in Hp as [price Hp].
  eexists. apply process_trade_Ok. exists qty, price. eauto.
Qed.

Lemma process_trades_Ok (trades : list RawTrade) (df : DataFrame) :
  BTC_Tracking.process_trades trades = Ok df <->
  exists records,
    df = DataFrame_of_records BTC_Tracking.labels records /\
    Forall2 (fun trade record => BTC_Tracking.process_trade trade = Ok record) trades records.
Proof.
  unfold BTC_Tracking.process_trades. rewrite bind_Ok. split.
  - intros [records [H Hdf]]. apply for_trades_Ok in H as [records' [-> HF]].
    injection Hdf as <-. exists records'. split; [reflexivity | exact HF].
  - intros [records [-> HF]]. exists records. split; [| reflexivity].
    apply for_trades_Ok. exists records. split; [reflexivity | exact HF].
Qed.

Lemma test_py_process_trades_Ok (trades : list RawTrade) (df : DataFrame) :
  test_py.process_trades trades = Ok df <->
  exists records,
    df = DataFrame_of_records test_py.labels records /\
    Forall2 (fun trade record => BTC_Tracking.process_trade trade = Ok record) trades records.
Proof.
  unfold test_py.process_trades. rewrite bind_Ok. split.
  - intros [records [H Hdf]]. apply for_trades_Ok in H as [records' [-> HF]].
    injection Hdf as <-. exists records'. split; [reflexivity |].
    revert HF. apply Forall2_impl. intros t r. now rewrite test_py_process_trade.
  - intros [records [-> HF]]. exists records. split; [| reflexivity].
    apply for_trades_Ok. exists records. split; [reflexivity |].
    revert HF. apply Forall2_impl. intros t r. now rewrite test_py_process_trade.
Qed.

(** C6. The side of a normalised record depends on the buyer-is-maker flag
    of its raw trade alone: it is SELL exactly when the flag is true and BUY
    exactly when it is false, in [BTC_Tracking.py] and in [test.py]. *)
Theorem C6_side_is_a_function_of_the_maker_flag :
  forall (trades : list RawTrade) (df : DataFrame),
    BTC_Tracking.process_trades trades = Ok df \/ test_py.process_trades trades = Ok df ->
    Forall2 (fun trade record =>
               (side record = SELL <-> raw_m trade = true) /\
               (side record = BUY <-> raw_m trade = false))
            trades (rows df).
Proof.
  intros trades df H.
  assert (exists labels records,
             df = DataFrame_of_records labels records /\
             Forall2 (fun trade record => BTC_Tracking.process_trade trade = Ok record)
                     trades records) as [labels [records [-> HF]]].
  { destruct H as [H | H].
    - apply process_trades_Ok in H as [records H]. eauto.
    - apply test_py_process_trades_Ok in H as [records H]. eauto. }
  rewrite rows_DataFrame_of_records. revert HF. apply Forall2_impl.
  intros trade record Hr. apply process_trade_Ok in Hr as [qty [price [_ [_ ->]]]].
  simpl. destruct (raw_m trade); split; split; congruence.
Qed.

Lemma C6_side_witness :
  BTC_Tracking.process_trades sample_trades
    = Ok (mkDataFrame BTC_Tracking.labels sample_records) /\
  Forall2 (fun trade record =>
             (side record = SELL <-> raw_m trade = true) /\
             (side record = BUY <-> raw_m trade = false))
          sample_trades sample_records.
Proof.
  split.
  - vm_compute. reflexivity.
  - apply (C6_side_is_a_function_of_the_maker_flag
             sample_trades (mkDataFrame BTC_Tracking.labels sample_records)).
    left. vm_compute. reflexivity.
Defined.

Lemma Forall2_py_float_unique (trades : list RawTrade) (records : list Row) :
  Forall2 (fun trade record => BTC_Tracking.process_trade trade = Ok record) trades records ->
  forall quantities,
    Forall2 (fun trade q => py_float (raw_q trade) = Ok q) trades quantities ->
    map amount_btc records = quantities.
Proof.
  induction 1 as [| trade record trades records Hr _ IH]; intros quantities Hq.
  - inversion Hq. reflexivity.
  - inversion Hq as [| ? q ? quantities' Hq1 Hq2]; subst. simpl.
    apply process_trade_Ok in Hr as [qty [price [Hqty [_ ->]]]]. simpl.
    f_equal; [congruence | now apply IH].
Qed.

(** C7. On raw trades whose quantity and price are numerals, [process_trades]
    returns a frame with exactly one record per trade, the i-th record being
    the one built from the i-th trade (nothing filtered, nothing added, the
    order kept); hence the base quantities of the records are the quantities
    of the trades, one for one, and their sums are equal.  Both files. *)
Theorem C7_one_record_per_trade :
  forall trades : list RawTrade,
    Forall numeric trades ->
    (exists df,
        BTC_Tracking.process_trades trades = Ok df /\
        List.length (rows df) = List.length trades /\
        Forall2 (fun trade record => BTC_Tracking.process_trade trade = Ok record)
                trades (rows df) /\
        forall quantities,
          Forall2 (fun trade q => py_float (raw_q trade) = Ok q) trades quantities ->
          map amount_btc (rows df) = quantities /\
          float_sum (map amount_btc (rows df)) = float_sum quantities) /\
    (exists df,
        test_py.process_trades trades = Ok df /\
        List.length (rows df) = List.length trades /\
        Forall2 (fun trade record => test_py.process_trade trade = Ok record)
                trades (rows df) /\
        forall quantities,
          Forall2 (fun trade q => py_float (raw_q trade) = Ok q) trades quantities ->
          map amount_btc (rows df) = quantities /\
          float_sum (map amount_btc (rows df)) = float_sum quantities).
Proof.
  intros trades Hnum.
  assert (exists records,
             Forall2 (fun trade record => BTC_Tracking.process_trade trade = Ok record)
                     trades records) as [records HF].
  { destruct (for_trades_returns BTC_Tracking.process_trade trades) with (processed := @nil Row)
      as [res Hres].
    - revert Hnum. apply Forall_impl. exact process_trade_returns.
    - apply for_trades_Ok in Hres as [records [_ HF]]. eauto. }
  assert (Hsum : forall quantities,
             Forall2 (fun trade q => py_float (raw_q trade) = Ok q) trades quantities ->
             map amount_btc records = quantities /\
             float_sum (map amount_btc records) = float_sum quantities).
  { intros quantities Hq.
    pose proof (Forall2_py_float_unique trades records HF quantities Hq) as E.
    split; [exact E | now rewrite E]. }
  split.
  - exists (DataFrame_of_records BTC_Tracking.labels records).
    rewrite rows_DataFrame_of_records. repeat split.
    + apply process_trades_Ok. eauto.
    + symmetry. eapply Forall2_length. exact HF.
    + exact HF.
    + apply Hsum; assumption.
    + apply Hsum; assumption.
  - exists (DataFrame_of_records test_py.labels records).
    rewrite rows_DataFrame_of_records. repeat split.
    + apply test_py_process_trades_Ok. eauto.
    + symmetry. eapply Forall2_length. exact HF.
    + revert HF. apply Forall2_impl. intros t r. now rewrite test_py_process_trade.
    + apply Hsum; assumption.
    + apply Hsum; assumption.
Qed.

Lemma sample_trades_numeric : Forall numeric sample_trades.
Proof.
  repeat constructor; vm_compute; discriminate.
Defined.

Lemma C7_one_record_per_trade_witness :
  Forall numeric sample_trades /\
  exists df,
    BTC_Tracking.process_trades sample_trades = Ok df /\
    List.length (rows df) = List.length sample_trades /\
    Forall2 (fun trade record => BTC_Tracking.process_trade trade = Ok record)
            sample_trades (rows df) /\
    forall quantities,
      Forall2 (fun trade q => py_float (raw_q trade) = Ok q) sample_trades quantities ->
      map amount_btc (rows df) = quantities /\
      float_sum (map amount_btc (rows df)) = float_sum quantities.
Proof.
  split.
  - exact sample_trades_numeric.
  - exact (proj1 (C7_one_record_per_trade sample_trades sample_trades_numeric)).
Defined.

(** C8, as stated, fails: for the quantity ["0.1"] and the price
    ["104250.42"] the record holds the binary64 number nearest to one tenth,
    which is not one tenth, and a notional value that is not the product. *)
Lemma C8_exact_decimal_counterexample :
  ~ (forall trade record,
        BTC_Tracking.process_trade trade = Ok record -> exact_record trade record).
Proof.
  intros H.
  destruct (BTC_Tracking.process_trade inexact_trade) as [record | e] eqn:Hrec;
    [| vm_compute in Hrec; discriminate].
  specialize (H inexact_trade record Hrec).
  vm_compute in Hrec. injection Hrec as <-.
  destruct H as [q [p [vq [vn [Hq [_ [Hvq [_ [Hexact _]]]]]]]]].
  vm_compute in Hq. injection Hq as <-.
  vm_compute in Hvq. injection Hvq as <-.
  vm_compute in Hexact. discriminate.
Qed.

(** The notional value of that record is not even the product of the two
    binary64 numbers read: the multiplication rounds. *)
Remark inexact_trade_product_is_rounded :
  exists record vq vp vn,
    BTC_Tracking.process_trade inexact_trade = Ok record /\
    float_value (amount_btc record) = Some vq /\
    (p <- py_float (raw_p inexact_trade) ;; Ok (float_value p)) = Ok (Some vp) /\
    float_value (amount_usdt record) = Some vn /\
    ~ Qeq vn (Qmult vq vp).
Proof.
  do 4 eexists.
  split; [vm_compute; reflexivity |].
  split; [vm_compute; reflexivity |].
  split; [vm_compute; reflexivity |].
  split; [vm_compute; reflexivity |].
  vm_compute. discriminate.
Qed.

(** C8, amended. Each record holds [float(q)], the binary64 number that
    [float] reads from the quantity string, and the binary64 product
    [float(q) * float(p)], which is the IEEE 754 multiplication of the two
    numbers read (the exact product rounded to nearest).  Both files. *)
Theorem C8_float_quantity_and_rounded_product :
  forall (trades : list RawTrade) (df : DataFrame),
    BTC_Tracking.process_trades trades = Ok df \/ test_py.process_trades trades = Ok df ->
    Forall2 (fun trade record =>
               exists qty price,
                 py_float (raw_q trade) = Ok qty /\
                 py_float (raw_p trade) = Ok price /\
                 amount_btc record = qty /\
                 amount_usdt record = (qty * price)%float /\
                 Prim2SF (amount_usdt record) = SF64mul (Prim2SF qty) (Prim2SF price))
            trades (rows df).
Proof.
  intros trades df H.
  assert (exists labels records,
             df = DataFrame_of_records labels records /\
             Forall2 (fun trade record => BTC_Tracking.process_trade trade = Ok record)
                     trades records) as [labels [records [-> HF]]].
  { destruct H as [H | H].
    - apply process_trades_Ok in H as [records H]. eauto.
    - apply test_py_process_trades_Ok in H as [records H]. eauto. }
  rewrite rows_DataFrame_of_records. revert HF. apply Forall2_impl.
  intros trade record Hr. apply process_trade_Ok in Hr as [qty [price [Hq [Hp ->]]]].
  exists qty, price. simpl. repeat split; auto. apply FloatAxioms.mul_spec.
Qed.

Lemma C8_float_quantity_witness :
  test_py.process_trades sample_trades
    = Ok (mkDataFrame test_py.labels sample_records) /\
  Forall2 (fun trade record =>
             exists qty price,
               py_float (raw_q trade) = Ok qty /\
               py_float (raw_p trade) = Ok price /\
               amount_btc record = qty /\
               amount_usdt record = (qty * price)%float /\
               Prim2SF (amount_usdt record) = SF64mul (Prim2SF qty) (Prim2SF price))
          sample_trades sample_records.
Proof.
  split.
  - vm_compute. reflexivity.
  - apply (C8_float_quantity_and_rounded_product
             sample_trades (mkDataFrame test_py.labels sample_records)).
    right. vm_compute. reflexivity.
Defined.

(** ** The order of the grouping keys *)

Lemma Side_compare_eq (s1 s2 : Side) : Side_compare s1 s2 = Eq <-> s1 = s2.
Proof. destruct s1, s2; simpl; split; congruence. Qed.

Lemma Key_compare_eq (k1 k2 : Key) : Key_compare k1 k2 = Eq <-> k1 = k2.
Proof.
  destruct k1 as [t1 s1], k2 as [t2 s2]. unfold Key_compare. simpl.
  destruct (Z.compare_spec t1 t2) as [E | L | G].
  - subst. rewrite Side_compare_eq. split; congruence.
  - split; [discriminate | intros H; injection H; lia].
  - split; [discriminate | intros H; injection H; lia].
Qed.

Lemma Key_eqb_eq (k1 k2 : Key) : Key_eqb k1 k2 = true <-> k1 = k2.
Proof.
  unfold Key_eqb. rewrite <- Key_compare_eq.
  destruct (Key_compare k1 k2); split; congruence.
Qed.

Lemma Key_eqb_refl (k : Key) : Key_eqb k k = true.
Proof. now apply Key_eqb_eq. Qed.

Lemma Key_eqb_neq (k1 k2 : Key) : Key_eqb k1 k2 = false <-> k1 <> k2.
Proof.
  rewrite <- Key_eqb_eq. destruct (Key_eqb k1 k2); split; congruence.
Qed.

Lemma Key_compare_antisym (k1 k2 : Key) :
  Key_compare k2 k1 = CompOpp (Key_compare k1 k2).
Proof.
  destruct k1 as [t1 s1], k2 as [t2 s2]. unfold Key_compare. simpl.
  rewrite (Z.compare_antisym t1 t2).
  destruct (t1 ?= t2); simpl; try reflexivity. destruct s1, s2; reflexivity.
Qed.

Lemma key_lt_trans (k1 k2 k3 : Key) : key_lt k1 k2 -> key_lt k2 k3 -> key_lt k1 k3.
Proof.
  destruct k1 as [t1 s1], k2 as [t2 s2], k3 as [t3 s3].
  unfold key_lt, Key_compare. simpl.
  destruct (Z.compare_spec t1 t2), (Z.compare_spec t2 t3); try discriminate;
    destruct (Z.compare_spec t1 t3); try lia; try reflexivity;
    destruct s1, s2, s3; simpl; congruence.
Qed.

Lemma key_lt_irrefl (k : Key) : ~ key_lt k k.
Proof.
  unfold key_lt. intros H. assert (Key_compare k k = Eq) by now apply Key_compare_eq.
  congruence.
Qed.

Lemma key_lt_neq (k1 k2 : Key) : key_lt k1 k2 -> k1 <> k2.
Proof. intros H ->. exact (key_lt_irrefl _ H). Qed.

(** ** The grouped sum *)

Lemma group_add_keys (r : Row) (groups : list Pandas.Group) (k : Key) :
  In k (map Pandas.group_key (Pandas.group_add r groups)) <->
  k = key_of r \/ In k (map Pandas.group_key groups).
Proof.
  induction groups as [| g rest IH]; simpl.
  - intuition congruence.
  - destruct (Key_compare (key_of r) (Pandas.group_key g)) eqn:C; simpl.
    + apply Key_compare_eq in C. rewrite <- C. intuition congruence.
    + intuition congruence.
    + rewrite IH. intuition congruence.
Qed.

Lemma group_add_ascending (r : Row) (groups : list Pandas.Group) :
  keys_ascending groups -> keys_ascending (Pandas.group_add r groups).
Proof.
  unfold keys_ascending.
  induction groups as [| g rest IH]; intros Hs; simpl.
  - repeat constructor.
  - apply StronglySorted_inv in Hs as [Hrest Hg].
    destruct (Key_compare (key_of r) (Pandas.group_key g)) eqn:C.
    + constructor; [exact Hrest | exact Hg].
    + constructor; [constructor; assumption |].
      constructor; [exact C |].
      rewrite Forall_forall in *. intros g' Hin. simpl.
      eapply key_lt_trans; [exact C | now apply Hg].
    + constructor; [now apply IH |].
      rewrite Forall_forall in *. intros g' Hin.
      assert (In (Pandas.group_key g') (map Pandas.group_key (Pandas.group_add r rest)))
        as Hk by now apply in_map.
      apply group_add_keys in Hk as [Hk | Hk].
      * rewrite Hk. unfold key_lt. rewrite Key_compare_antisym, C. reflexivity.
      * apply in_map_iff in Hk as [g'' [E Hin'']]. rewrite <- E. now apply Hg.
Qed.

Lemma group_rows_from_ascending (rs : list Row) :
  forall groups,
    keys_ascending groups ->
    keys_ascending (fold_left (fun groups r => Pandas.group_add r groups) rs groups).
Proof.
  induction rs as [| r rs IH]; intros groups Hs; simpl.
  - exact Hs.
  - apply IH. now apply group_add_ascending.
Qed.

Lemma group_rows_ascending (rs : list Row) : keys_ascending (Pandas.group_rows rs).
Proof. apply group_rows_from_ascending. constructor. Qed.

Lemma group_rows_from_keys (rs : list Row) :
  forall groups k,
    In k (map Pandas.group_key (fold_left (fun groups r => Pandas.group_add r groups) rs groups))
    <-> In k (map key_of rs) \/ In k (map Pandas.group_key groups).
Proof.
  induction rs as [| r rs IH]; intros groups k; simpl.
  - tauto.
  - rewrite IH, group_add_keys. intuition congruence.
Qed.

Lemma group_rows_keys (rs : list Row) (k : Key) :
  In k (map Pandas.group_key (Pandas.group_rows rs)) <-> In k (map key_of rs).
Proof.
  unfold Pandas.group_rows. rewrite group_rows_from_keys. simpl. tauto.
Qed.

Lemma keys_ascending_NoDup (groups : list Pandas.Group) :
  keys_ascending groups -> NoDup (map Pandas.group_key groups).
Proof.
  induction 1 as [| g rest Hrest IH Hg]; simpl; constructor; auto.
  intros Hin. apply in_map_iff in Hin as [g' [E Hin]].
  rewrite Forall_forall in Hg. apply (key_lt_neq _ _ (Hg g' Hin)). congruence.
Qed.

Section OneColumn.

(** One aggregated column: where a group keeps its accumulator, and the
    column of the rows it adds up. *)
Variable proj : Pandas.Group -> Pandas.Acc.
Variable col : Row -> float.
Hypothesis proj_new : forall r, proj (Pandas.group_new r) = Pandas.acc_add Pandas.acc0 (col r).
Hypothesis proj_update :
  forall g r, proj (Pandas.group_update g r) = Pandas.acc_add (proj g) (col r).

Lemma acc_at_below (k : Key) (groups : list Pandas.Group) :
  Forall (fun g => key_lt k (Pandas.group_key g)) groups ->
  acc_at proj k groups = Pandas.acc0.
Proof.
  unfold acc_at. induction 1 as [| g rest Hg _ IH]; simpl.
  - reflexivity.
  - assert (Key_eqb (Pandas.group_key g) k = false) as ->.
    { apply Key_eqb_neq. intros E. apply (key_lt_neq _ _ Hg). congruence. }
    exact IH.
Qed.

Lemma acc_at_group_add (r : Row) (k : Key) (groups : list Pandas.Group) :
  keys_ascending groups ->
  acc_at proj k (Pandas.group_add r groups) =
  if Key_eqb (key_of r) k then Pandas.acc_add (acc_at proj k groups) (col r)
  else acc_at proj k groups.
Proof.
  unfold keys_ascending.
  induction groups as [| g rest IH]; intros Hs.
  - unfold acc_at. simpl. destruct (Key_eqb (key_of r) k); [apply proj_new | reflexivity].
  - apply StronglySorted_inv in Hs as [Hrest Hg]. simpl.
    destruct (Key_compare (key_of r) (Pandas.group_key g)) eqn:C.
    + apply Key_compare_eq in C. unfold acc_at. simpl. rewrite <- C.
      destruct (Key_eqb (key_of r) k); [apply proj_update | reflexivity].
    + destruct (Key_eqb (key_of r) k) eqn:E.
      * apply Key_eqb_eq in E. subst k.
        rewrite (acc_at_below (key_of r) (g :: rest)).
        -- unfold acc_at. simpl. rewrite Key_eqb_refl. apply proj_new.
        -- constructor; [exact C |]. revert Hg. apply Forall_impl.
           intros g' Hg'. eapply key_lt_trans; [exact C | exact Hg'].
      * unfold acc_at. simpl. rewrite E. reflexivity.
    + unfold acc_at in *. simpl.
      destruct (Key_eqb (Pandas.group_key g) k) eqn:E.
      * apply Key_eqb_eq in E. subst k.
        assert (Key_eqb (key_of r) (Pandas.group_key g) = false) as ->; [| reflexivity].
        unfold Key_eqb. now rewrite C.
      * now apply IH.
Qed.

Lemma acc_at_fold (rs : list Row) (k : Key) :
  forall groups,
    keys_ascending groups ->
    acc_at proj k (fold_left (fun groups r => Pandas.group_add r groups) rs groups) =
    fold_left Pandas.acc_add (map col (members k rs)) (acc_at proj k groups).
Proof.
  unfold members.
  induction rs as [| r rs IH]; intros groups Hs; simpl.
  - reflexivity.
  - rewrite IH by now apply group_add_ascending.
    rewrite acc_at_group_add by exact Hs.
    destruct (Key_eqb (key_of r) k); reflexivity.
Qed.

Lemma acc_at_own (g : Pandas.Group) (groups : list Pandas.Group) :
  keys_ascending groups -> In g groups ->
  acc_at proj (Pandas.group_key g) groups = proj g.
Proof.
  unfold keys_ascending, acc_at.
  induction 1 as [| g0 rest Hrest IH Hg0]; intros Hin; simpl.
  - contradiction.
  - destruct Hin as [-> | Hin].
    + now rewrite Key_eqb_refl.
    + assert (Key_eqb (Pandas.group_key g0) (Pandas.group_key g) = false) as ->.
      { apply Key_eqb_neq. apply key_lt_neq. rewrite Forall_forall in Hg0. now apply Hg0. }
      now apply IH.
Qed.

Lemma group_rows_acc (rs : list Row) (g : Pandas.Group) :
  In g (Pandas.group_rows rs) ->
  Pandas.sumx (proj g) = Pandas.col_sum (map col (members (Pandas.group_key g) rs)).
Proof.
  intros Hin. rewrite <- (acc_at_own g (Pandas.group_rows rs)).
  - unfold Pandas.group_rows. rewrite acc_at_fold by constructor. reflexivity.
  - apply group_rows_ascending.
  - exact Hin.
Qed.

End OneColumn.

Lemma key_of_group_row (g : Pandas.Group) : key_of (Pandas.group_row g) = Pandas.group_key g.
Proof. unfold key_of, Pandas.group_row. simpl. now destruct (Pandas.group_key g). Qed.

Lemma map_key_of_group_row (groups : list Pandas.Group) :
  map key_of (map Pandas.group_row groups) = map Pandas.group_key groups.
Proof.
  rewrite map_map. apply map_ext. exact key_of_group_row.
Qed.

Lemma groupby_sum_Ok (time_label : string) (df grouped : DataFrame) :
  Pandas.groupby_sum time_label df = Ok grouped <->
  has_columns time_label df /\
  grouped = mkDataFrame [time_label; "side"; "amount_btc"; "amount_usdt"]
                        (map Pandas.group_row (Pandas.group_rows (rows df))).
Proof.
  unfold Pandas.groupby_sum, has_columns.
  destruct (Pandas.missing [time_label; "side"] df) as [| l ls].
  - destruct (Pandas.missing ["amount_btc"; "amount_usdt"] df) as [| l' ls'].
    + split; [intros H; injection H as <-; auto | intros [_ ->]; reflexivity].
    + split; [discriminate | intros [[_ H] _]; discriminate].
  - split; [discriminate | intros [[H _] _]; discriminate].
Qed.

Lemma grouped_length (rs : list Row) :
  List.length (map Pandas.group_row (Pandas.group_rows rs)) = distinct_groups rs.
Proof.
  unfold distinct_groups.
  rewrite length_map, <- (length_map Pandas.group_key).
  apply Permutation_length, NoDup_Permutation.
  - apply keys_ascending_NoDup, group_rows_ascending.
  - apply NoDup_nodup.
  - intros k. rewrite nodup_In. apply group_rows_keys.
Qed.

(** ** The order of binary64 numbers

    The comparisons of the kernel's floats are specified on [spec_float]
    ([FloatAxioms]).  A number that is not NaN is ranked by a triple of
    integers whose lexicographic order is the order of the numbers; the two
    zeros share a rank. *)

Lemma SFcompare_rank (x y : spec_float) (rx ry : Rank) :
  SFrank x = Some rx -> SFrank y = Some ry ->
  exists c, SFcompare x y = Some c /\
            (c = Lt <-> rank_lt rx ry) /\ (c = Eq <-> rx = ry) /\ (c = Gt <-> rank_lt ry rx).
Proof.
  assert (triple : forall a b c a' b' c' : Z,
             (a, b, c) = (a', b', c') <-> a = a' /\ b = b' /\ c = c').
  { intros. split; [intros E; injection E; auto | intros [-> [-> ->]]; reflexivity]. }
  destruct x as [sx | sx | | sx mx ex], y as [sy | sy | | sy my ey];
    try discriminate; simpl;
    try destruct sx; try destruct sy; intros Hx Hy;
    injection Hx as <-; injection Hy as <-; simpl;
    try change (Pos.compare_cont Eq mx my) with (Pos.compare mx my);
    try destruct (Z.compare_spec ex ey); try destruct (Pos.compare_spec mx my); simpl;
    eexists; (split; [reflexivity |]); rewrite triple;
    (split; [| split]); (split; [try discriminate; try lia | try lia; try discriminate]).
  all: try (intros _; reflexivity).
  all: try (intros _; lia).
  all: try (intros [? [? ?]]; lia).
  all: try (intros ?; exfalso; lia).
Qed.

Lemma SFrank_None (x : spec_float) : SFrank x = None <-> x = S754_nan.
Proof.
  destruct x as [[|] | [|] | | [|] m e]; simpl; split; congruence.
Qed.

Lemma SFcompare_nan (x y : spec_float) :
  SFrank x = None \/ SFrank y = None -> SFcompare x y = None.
Proof.
  rewrite !SFrank_None. intros [-> | ->]; [reflexivity |]. now destruct x.
Qed.

Lemma is_nan_rank (f : float) : is_nan f = true <-> rank f = None.
Proof.
  unfold is_nan, rank. rewrite FloatAxioms.eqb_spec. unfold SFeqb.
  destruct (SFrank (Prim2SF f)) as [r |] eqn:E.
  - destruct (SFcompare_rank _ _ r r E E) as [c [-> [_ [Heq _]]]].
    rewrite (proj2 Heq eq_refl). simpl. split; discriminate.
  - rewrite SFcompare_nan by auto. simpl. tauto.
Qed.

Lemma not_nan_rank (f : float) : is_nan f = false <-> exists r, rank f = Some r.
Proof.
  pose proof (is_nan_rank f) as [H1 H2].
  destruct (rank f) as [r |].
  - split; [eauto | intros _].
    destruct (is_nan f); [specialize (H1 eq_refl); discriminate | reflexivity].
  - rewrite (H2 eq_refl). split; [discriminate | intros [r Hr]; discriminate].
Qed.

Section FloatOrder.

Variables (x y : float) (rx ry : Rank).
Hypothesis Hx : rank x = Some rx.
Hypothesis Hy : rank y = Some ry.

Lemma ltb_rank : (x <? y)%float = true <-> rank_lt rx ry.
Proof.
  rewrite FloatAxioms.ltb_spec. unfold SFltb.
  destruct (SFcompare_rank _ _ rx ry Hx Hy) as [c [-> [Hlt _]]].
  rewrite <- Hlt. destruct c; split; congruence.
Qed.

Lemma eqb_rank : (x =? y)%float = true <-> rx = ry.
Proof.
  rewrite FloatAxioms.eqb_spec. unfold SFeqb.
  destruct (SFcompare_rank _ _ rx ry Hx Hy) as [c [-> [_ [Heq _]]]].
  rewrite <- Heq. destruct c; split; congruence.
Qed.

Lemma leb_rank : (x <=? y)%float = true <-> rank_lt rx ry \/ rx = ry.
Proof.
  rewrite FloatAxioms.leb_spec. unfold SFleb.
  destruct (SFcompare_rank _ _ rx ry Hx Hy) as [c [-> [Hlt [Heq _]]]].
  rewrite <- Hlt, <- Heq. destruct c; split; try tauto; try congruence.
  intros [H | H]; discriminate.
Qed.

End FloatOrder.

Lemma eqb_true_rank (x y : float) :
  (x =? y)%float = true -> exists r, rank x = Some r /\ rank y = Some r.
Proof.
  rewrite FloatAxioms.eqb_spec. unfold SFeqb, rank. intros H.
  destruct (SFrank (Prim2SF x)) as [rx |] eqn:Ex;
    [| rewrite SFcompare_nan in H by auto; discriminate].
  destruct (SFrank (Prim2SF y)) as [ry |] eqn:Ey;
    [| rewrite SFcompare_nan in H by auto; discriminate].
  destruct (SFcompare_rank _ _ rx ry Ex Ey) as [c [Hc [_ [Heq _]]]].
  rewrite Hc in H. destruct c; try discriminate.
  rewrite (proj1 Heq eq_refl). eauto.
Qed.

Lemma ltb_true_rank (x y : float) :
  (x <? y)%float = true ->
  exists rx ry, rank x = Some rx /\ rank y = Some ry /\ rank_lt rx ry.
Proof.
  intros H. pose proof H as H'. revert H'.
  rewrite FloatAxioms.ltb_spec. unfold SFltb. intros H'.
  destruct (rank x) as [rx |] eqn:Ex;
    [| unfold rank in Ex; rewrite SFcompare_nan in H' by auto; discriminate].
  destruct (rank y) as [ry |] eqn:Ey;
    [| unfold rank in Ey; rewrite SFcompare_nan in H' by auto; discriminate].
  exists rx, ry. repeat split. now apply (ltb_rank x y rx ry).
Qed.

Lemma rank_lt_trans (r1 r2 r3 : Rank) : rank_lt r1 r2 -> rank_lt r2 r3 -> rank_lt r1 r3.
Proof.
  destruct r1 as [[a1 b1] c1], r2 as [[a2 b2] c2], r3 as [[a3 b3] c3]. simpl. lia.
Qed.

Lemma rank_lt_irrefl (r : Rank) : ~ rank_lt r r.
Proof. destruct r as [[a b] c]. simpl. lia. Qed.

Lemma rank_total (r1 r2 : Rank) : rank_lt r1 r2 \/ r1 = r2 \/ rank_lt r2 r1.
Proof.
  destruct r1 as [[a1 b1] c1], r2 as [[a2 b2] c2]. simpl.
  destruct (Z.lt_total a1 a2) as [? | [? | ?]]; try lia.
  destruct (Z.lt_total b1 b2) as [? | [? | ?]]; try lia.
  destruct (Z.lt_total c1 c2) as [? | [? | ?]]; try lia.
  subst. auto.
Qed.

(** ** The column sum of pandas, on one and on two entries *)

Lemma Prim2SF_zero : Prim2SF zero = S754_zero false.
Proof. reflexivity. Qed.

Lemma is_nan_Prim2SF (f : float) : is_nan f = true <-> Prim2SF f = S754_nan.
Proof. rewrite is_nan_rank. unfold rank. apply SFrank_None. Qed.

Lemma float_sub_zero (v : float) : (v - zero)%float = v.
Proof.
  apply Prim2SF_inj. rewrite FloatAxioms.sub_spec, Prim2SF_zero.
  destruct (Prim2SF v) as [[|] | [|] | | s m e]; reflexivity.
Qed.

(** Adding a number to zero and taking it away again leaves zero, or NaN
    when the number is infinite: the first compensation of a group is
    zero. *)
Lemma first_compensation (v : float) :
  is_nan v = false ->
  let c := (zero + v - v)%float in
  (if is_nan c then zero else c) = zero.
Proof.
  intros Hv c.
  destruct (is_nan c) eqn:Hc; [reflexivity |].
  apply Prim2SF_inj. rewrite Prim2SF_zero.
  assert (Hc' : Prim2SF c <> S754_nan).
  { intros E. apply is_nan_Prim2SF in E. congruence. }
  assert (Hv' : Prim2SF v <> S754_nan).
  { intros E. apply is_nan_Prim2SF in E. congruence. }
  revert Hc'. unfold c.
  rewrite FloatAxioms.sub_spec, FloatAxioms.add_spec, Prim2SF_zero.
  destruct (Prim2SF v) as [[|] | [|] | | s m e]; simpl; try congruence; try reflexivity.
  intros _. unfold SF64sub, SF64add, SFsub, SFadd.
  rewrite Z.min_id. unfold shl_align. rewrite !Z.sub_diag. reflexivity.
Qed.

Lemma acc_add_nan (acc : Pandas.Acc) (v : float) :
  is_nan v = true -> Pandas.acc_add acc v = acc.
Proof. unfold Pandas.acc_add. now intros ->. Qed.

Lemma acc_add_first (v : float) :
  is_nan v = false -> Pandas.acc_add Pandas.acc0 v = Pandas.mkAcc (zero + v)%float zero.
Proof.
  intros Hv. unfold Pandas.acc_add, Pandas.acc0. rewrite Hv. simpl.
  rewrite !float_sub_zero. f_equal. now apply first_compensation.
Qed.

Lemma col_sum_skips_nan (vals : list float) :
  Pandas.col_sum vals = Pandas.col_sum (filter (fun v => negb (is_nan v)) vals).
Proof.
  unfold Pandas.col_sum. generalize Pandas.acc0.
  induction vals as [| v vals IH]; intros acc; simpl; [reflexivity |].
  destruct (is_nan v) eqn:Hv; simpl.
  - rewrite acc_add_nan by exact Hv. apply IH.
  - apply IH.
Qed.

Lemma col_sum_one (v : float) :
  is_nan v = false -> Pandas.col_sum [v] = (zero + v)%float.
Proof.
  intros Hv. unfold Pandas.col_sum. simpl. now rewrite acc_add_first.
Qed.

Lemma col_sum_two (v w : float) :
  is_nan v = false -> is_nan w = false ->
  Pandas.col_sum [v; w] = (zero + v + w)%float.
Proof.
  intros Hv Hw. unfold Pandas.col_sum. simpl. rewrite acc_add_first by exact Hv.
  unfold Pandas.acc_add. rewrite Hw. simpl. now rewrite float_sub_zero.
Qed.

(** C1, as stated, fails: the sums are binary64 sums.  For two trades of one
    key with the quantities 0.1 and 0.2 the grouped row holds
    0.30000000000000004, which is not the exact total of the two
    quantities. *)
Lemma C1_exact_totals_counterexample :
  ~ (forall time_label df grouped,
        Pandas.groupby_sum time_label df = Ok grouped -> exact_totals df grouped).
Proof.
  intros H.
  assert (Hg : Pandas.groupby_sum "T" rounding_frame = Ok rounding_grouped)
    by (vm_compute; reflexivity).
  specialize (H _ _ _ Hg).
  assert (Hin : In (hd (mkRow 0 zero zero BUY) (rows rounding_grouped))
                   (rows rounding_grouped))
    by (vm_compute; left; reflexivity).
  destruct (H _ Hin) as [vb [tb [vu [tu [Hvb [Htb [Hexact _]]]]]]].
  vm_compute in Hvb. injection Hvb as <-.
  vm_compute in Htb. injection Htb as <-.
  vm_compute in Hexact. discriminate.
Qed.

Lemma scenario_frame_groupby :
  Pandas.groupby_sum "T" (mkDataFrame BTC_Tracking.labels sample_records)
  = Ok (mkDataFrame ["T"; "side"; "amount_btc"; "amount_usdt"]
                    [mkRow 1000000 1.5 75000 BUY; mkRow 1000001 2 100001 SELL]).
Proof. vm_compute. reflexivity. Defined.

(** C1, amended.  The grouping step of [find_largest_trades] (in both
    files: the time label is a parameter) returns one row per distinct
    (time, side) pair of its input: no two rows share a pair, the pairs are
    exactly those that occur in the input, and the two amounts of a row are
    the binary64 column sums of pandas over all the input rows with the
    row's pair, each taken once, in input order.  That sum skips NaN
    entries; on one entry it is the entry (added to zero), on two entries
    their IEEE 754 sum, rounded; beyond that a compensated running sum.  On
    the two trades of the scenario the output is the single row
    (1000000, BUY, 1.5, 75000.0), in both files. *)
Theorem C1_one_row_per_group_with_its_float_sums :
  (forall (time_label : string) (df grouped : DataFrame),
      Pandas.groupby_sum time_label df = Ok grouped ->
      NoDup (map key_of (rows grouped)) /\
      (forall k, In k (map key_of (rows grouped)) <-> In k (map key_of (rows df))) /\
      List.length (rows grouped) = distinct_groups (rows df) /\
      (forall row, In row (rows grouped) ->
         amount_btc row
           = Pandas.col_sum (map amount_btc (members (key_of row) (rows df))) /\
         amount_usdt row
           = Pandas.col_sum (map amount_usdt (members (key_of row) (rows df))))) /\
  (forall vals,
      Pandas.col_sum vals = Pandas.col_sum (filter (fun v => negb (is_nan v)) vals)) /\
  (forall v, is_nan v = false -> Pandas.col_sum [v] = (zero + v)%float) /\
  (forall v w, is_nan v = false -> is_nan w = false ->
               Pandas.col_sum [v; w] = (zero + v + w)%float) /\
  (df <- BTC_Tracking.process_trades scenario_trades ;;
   BTC_Tracking.find_largest_trades df 5)
    = Ok (mkDataFrame ["T"; "side"; "amount_btc"; "amount_usdt"]
                      [mkRow 1000000 1.5 75000 BUY]) /\
  (df <- test_py.process_trades scenario_trades ;;
   test_py.find_largest_trades df 5)
    = Ok (mkDataFrame ["timestamp_us"; "side"; "amount_btc"; "amount_usdt"]
                      [mkRow 1000000 1.5 75000 BUY]).
Proof.
  split; [| split; [exact col_sum_skips_nan |];
            split; [exact col_sum_one |];
            split; [exact col_sum_two |];
            split; vm_compute; reflexivity].
  intros time_label df grouped H. apply groupby_sum_Ok in H as [_ ->]. simpl.
  rewrite map_key_of_group_row.
  assert (Hnd : NoDup (map Pandas.group_key (Pandas.group_rows (rows df))))
    by apply keys_ascending_NoDup, group_rows_ascending.
  split; [exact Hnd |]. split; [apply group_rows_keys |]. split.
  - apply grouped_length.
  - intros row Hin. apply in_map_iff in Hin as [g [<- Hin]].
    rewrite key_of_group_row. simpl. split.
    + now apply (group_rows_acc Pandas.acc_btc amount_btc).
    + now apply (group_rows_acc Pandas.acc_usdt amount_usdt).
Qed.

Lemma C1_one_row_per_group_witness :
  let df := mkDataFrame BTC_Tracking.labels sample_records in
  let grouped := mkDataFrame ["T"; "side"; "amount_btc"; "amount_usdt"]
                   [mkRow 1000000 1.5 75000 BUY; mkRow 1000001 2 100001 SELL] in
  Pandas.groupby_sum "T" df = Ok grouped /\
  NoDup (map key_of (rows grouped)) /\
  (forall k, In k (map key_of (rows grouped)) <-> In k (map key_of (rows df))) /\
  List.length (rows grouped) = distinct_groups (rows df) /\
  (forall row, In row (rows grouped) ->
     amount_btc row = Pandas.col_sum (map amount_btc (members (key_of row) (rows df))) /\
     amount_usdt row = Pandas.col_sum (map amount_usdt (members (key_of row) (rows df)))) /\
  Pandas.col_sum [1; 0.5]%float = (zero + 1 + 0.5)%float.
Proof.
  intros df grouped. split; [exact scenario_frame_groupby |].
  destruct C1_one_row_per_group_with_its_float_sums as [Hgroup [_ [_ [Htwo _]]]].
  destruct (Hgroup "T" df grouped scenario_frame_groupby) as [H1 [H2 [H3 H4]]].
  repeat (split; [assumption |]).
  apply Htwo; reflexivity.
Defined.

(** ** The ranking *)

Lemma nlargest_rows (n : Z) (col : Row -> float) (df : DataFrame) :
  rows (Pandas.nlargest n col df) = firstn (Z.to_nat n) (ranking col (rows df)).
Proof.
  unfold Pandas.nlargest, ranking. destruct (Z.leb_spec n 0) as [Hn | Hn]; simpl.
  - replace (Z.to_nat n) with 0%nat by lia. reflexivity.
  - reflexivity.
Qed.

Lemma insert_desc_Permutation (col : Row -> float) (r : Row) (l : list Row) :
  Permutation (Pandas.insert_desc col r l) (r :: l).
Proof.
  induction l as [| s rest IH]; simpl.
  - reflexivity.
  - destruct (col r <? col s)%float.
    + rewrite IH. apply perm_swap.
    + reflexivity.
Qed.

Lemma sort_desc_Permutation (col : Row -> float) (l : list Row) :
  Permutation (Pandas.sort_desc col l) l.
Proof.
  induction l as [| r rest IH]; simpl.
  - reflexivity.
  - rewrite insert_desc_Permutation. now constructor.
Qed.

Lemma filter_split_Permutation {A : Type} (p : A -> bool) (l : list A) :
  Permutation (filter (fun x => negb (p x)) l ++ filter p l) l.
Proof.
  induction l as [| x l IH]; simpl.
  - reflexivity.
  - destruct (p x); simpl.
    + rewrite <- Permutation_middle. now constructor.
    + now constructor.
Qed.

Lemma ranking_Permutation (col : Row -> float) (rs : list Row) :
  Permutation (ranking col rs) rs.
Proof.
  unfold ranking. rewrite sort_desc_Permutation.
  apply (filter_split_Permutation (fun r => is_nan (col r))).
Qed.

Lemma rank_ge_trans (col : Row -> float) (r1 r2 r3 : Row) :
  rank_ge col r1 r2 -> rank_ge col r2 r3 -> rank_ge col r1 r3.
Proof.
  intros [a [b [Ha [Hb H1]]]] [b' [c [Hb' [Hc H2]]]].
  rewrite Hb in Hb'. injection Hb' as <-.
  exists a, c. repeat split; auto.
  destruct H1 as [H1 | ->], H2 as [H2 | ->]; auto.
  left. eapply rank_lt_trans; eassumption.
Qed.

Lemma insert_desc_sorted (col : Row -> float) (r : Row) (l : list Row) :
  is_nan (col r) = false ->
  Forall (fun s => is_nan (col s) = false) l ->
  StronglySorted (rank_ge col) l ->
  StronglySorted (rank_ge col) (Pandas.insert_desc col r l).
Proof.
  intros Hr. apply not_nan_rank in Hr as [rr Hr].
  induction l as [| s rest IH]; intros Hl Hs; simpl.
  - repeat constructor.
  - apply Forall_cons_iff in Hl as [Hs0 Hrest].
    apply not_nan_rank in Hs0 as [rs Hs0].
    apply StronglySorted_inv in Hs as [Hsr Hhd].
    destruct (col r <? col s)%float eqn:C.
    + apply (ltb_rank _ _ rr rs Hr Hs0) in C.
      constructor; [now apply IH |].
      rewrite Forall_forall in *. intros x Hin.
      apply (Permutation_in _ (insert_desc_Permutation col r rest)) in Hin.
      destruct Hin as [<- | Hin]; [| now apply Hhd].
      exists rs, rr. auto.
    + assert (Hge : rank_ge col r s).
      { exists rr, rs. repeat split; auto.
        destruct (rank_total rr rs) as [H | [H | H]]; auto.
        apply (ltb_rank _ _ rr rs Hr Hs0) in H. congruence. }
      constructor; [constructor; assumption |].
      constructor; [exact Hge |].
      revert Hhd. apply Forall_impl. intros x Hx. eapply rank_ge_trans; eassumption.
Qed.

Lemma sort_desc_sorted (col : Row -> float) (l : list Row) :
  Forall (fun s => is_nan (col s) = false) l ->
  StronglySorted (rank_ge col) (Pandas.sort_desc col l).
Proof.
  induction 1 as [| r rest Hr Hrest IH]; simpl.
  - constructor.
  - apply insert_desc_sorted; auto.
    rewrite Forall_forall in *. intros x Hin. apply Hrest.
    now apply (Permutation_in _ (sort_desc_Permutation col rest)).
Qed.

Lemma rank_ge_ranked_before (col : Row -> float) (r1 r2 : Row) :
  rank_ge col r1 r2 -> ranked_before col r1 r2.
Proof.
  intros [a [b [Ha [Hb H]]]]. right. split.
  - apply not_nan_rank. eauto.
  - now apply (leb_rank _ _ b a Hb Ha).
Qed.

Lemma StronglySorted_app {A : Type} (R : A -> A -> Prop) (l1 l2 : list A) :
  StronglySorted R l1 -> StronglySorted R l2 ->
  (forall x y, In x l1 -> In y l2 -> R x y) ->
  StronglySorted R (l1 ++ l2).
Proof.
  induction 1 as [| x l1 Hl1 IH Hx]; intros H2 H12; simpl.
  - exact H2.
  - constructor.
    + apply IH; [exact H2 |]. intros a b Ha Hb. apply H12; [now right | exact Hb].
    + apply Forall_app. split; [exact Hx |].
      apply Forall_forall. intros y Hy. apply H12; [now left | exact Hy].
Qed.

Lemma StronglySorted_firstn {A : Type} (R : A -> A -> Prop) (n : nat) (l : list A) :
  StronglySorted R l -> StronglySorted R (firstn n l).
Proof.
  intros H. revert n. induction H as [| x l Hl IH Hx]; intros [| n]; simpl; try constructor.
  - apply IH.
  - rewrite Forall_forall in *. intros y Hy. apply Hx.
    rewrite <- (firstn_skipn n l). apply in_or_app. now left.
Qed.

Lemma StronglySorted_impl {A : Type} (R R' : A -> A -> Prop) (l : list A) :
  (forall x y, R x y -> R' x y) -> StronglySorted R l -> StronglySorted R' l.
Proof.
  intros HR. induction 1 as [| x l Hl IH Hx]; constructor; auto.
  revert Hx. apply Forall_impl. apply HR.
Qed.

Lemma ranking_sorted (col : Row -> float) (rs : list Row) :
  StronglySorted (ranked_before col) (ranking col rs).
Proof.
  unfold ranking. apply StronglySorted_app.
  - apply StronglySorted_impl with (R := rank_ge col); [apply rank_ge_ranked_before |].
    apply sort_desc_sorted. apply Forall_forall. intros r Hin.
    apply filter_In in Hin as [_ Hin]. now destruct (is_nan (col r)).
  - induction rs as [| r rs IH]; simpl; [constructor |].
    destruct (is_nan (col r)) eqn:E; [| exact IH].
    constructor; [exact IH |]. apply Forall_forall. intros y Hy.
    apply filter_In in Hy as [_ Hy]. now left.
  - intros x y _ Hy. apply filter_In in Hy as [_ Hy]. now left.
Qed.

(** *** Rows of equal value keep their order *)

Lemma insert_desc_filter (col : Row -> float) (v : float) (r : Row) (l : list Row) :
  filter (fun x => (col x =? v)%float) (Pandas.insert_desc col r l)
  = filter (fun x => (col x =? v)%float) (r :: l).
Proof.
  induction l as [| s rest IH].
  - reflexivity.
  - cbn [Pandas.insert_desc]. destruct (col r <? col s)%float eqn:C; [| reflexivity].
    cbn [filter] in *. rewrite IH.
    destruct (col r =? v)%float eqn:Er, (col s =? v)%float eqn:Es; try reflexivity.
    exfalso.
    apply eqb_true_rank in Er as [a [Hr Hv]]. apply eqb_true_rank in Es as [b [Hs Hv']].
    rewrite Hv in Hv'. injection Hv' as <-.
    apply (ltb_rank _ _ a a Hr Hs) in C. exact (rank_lt_irrefl _ C).
Qed.

Lemma sort_desc_filter (col : Row -> float) (v : float) (l : list Row) :
  filter (fun x => (col x =? v)%float) (Pandas.sort_desc col l)
  = filter (fun x => (col x =? v)%float) l.
Proof.
  induction l as [| r rest IH]; simpl.
  - reflexivity.
  - rewrite insert_desc_filter. simpl. now rewrite IH.
Qed.

Lemma eqb_true_not_nan (x v : float) : (x =? v)%float = true -> is_nan x = false.
Proof.
  intros H. apply eqb_true_rank in H as [a [Hx _]]. apply not_nan_rank. eauto.
Qed.

Lemma ranking_filter (col : Row -> float) (v : float) (rs : list Row) :
  filter (fun x => (col x =? v)%float) (ranking col rs)
  = filter (fun x => (col x =? v)%float) rs.
Proof.
  unfold ranking. rewrite filter_app, sort_desc_filter.
  induction rs as [| r rs IH]; simpl.
  - reflexivity.
  - destruct (col r =? v)%float eqn:E.
    + rewrite (eqb_true_not_nan _ _ E). simpl. rewrite E. simpl. now rewrite IH.
    + destruct (is_nan (col r)); simpl; rewrite E; exact IH.
Qed.

Lemma StronglySorted_filter {A : Type} (R : A -> A -> Prop) (p : A -> bool) (l : list A) :
  StronglySorted R l -> StronglySorted R (filter p l).
Proof.
  induction 1 as [| x l Hl IH Hx]; simpl; [constructor |].
  destruct (p x); [| exact IH]. constructor; [exact IH |].
  rewrite Forall_forall in *. intros y Hy. apply Hx. now apply filter_In in Hy.
Qed.

Lemma StronglySorted_middle {A : Type} (R : A -> A -> Prop) (l1 l2 : list A) (x : A) :
  StronglySorted R (l1 ++ x :: l2) -> Forall (R x) l2.
Proof.
  induction l1 as [| y l1 IH]; simpl; intros H; apply StronglySorted_inv in H as [H1 H2].
  - exact H2.
  - now apply IH.
Qed.

Lemma StronglySorted_map {A B : Type} (R : B -> B -> Prop) (f : A -> B) (l : list A) :
  StronglySorted (fun a b => R (f a) (f b)) l -> StronglySorted R (map f l).
Proof.
  induction 1 as [| x l Hl IH Hx]; simpl; constructor; auto.
  apply Forall_map. exact Hx.
Qed.

(** Two rows of equal value stand in a ranking in the order they have in
    the frame that was ranked. *)
Lemma ranking_ties (R : Row -> Row -> Prop) (col : Row -> float) (rs : list Row) :
  StronglySorted R rs ->
  forall l1 r1 l2 r2 l3,
    ranking col rs = l1 ++ r1 :: l2 ++ r2 :: l3 ->
    (col r1 =? col r2)%float = true ->
    R r1 r2.
Proof.
  intros Hs l1 r1 l2 r2 l3 E Htie.
  pose proof (ranking_filter col (col r2) rs) as HF. rewrite E in HF.
  assert (H2 : (col r2 =? col r2)%float = true).
  { destruct (eqb_true_rank _ _ Htie) as [a [_ Ha]]. now apply (eqb_rank _ _ a a Ha Ha). }
  rewrite filter_app in HF. cbn [filter] in HF. rewrite Htie, filter_app in HF.
  cbn [filter] in HF. rewrite H2 in HF.
  apply (StronglySorted_filter R (fun x => (col x =? col r2)%float)) in Hs.
  rewrite <- HF in Hs. apply StronglySorted_middle in Hs.
  rewrite Forall_forall in Hs. apply Hs. apply in_or_app. right. now left.
Qed.

Lemma key_lt_spelled (r1 r2 : Row) :
  key_lt (key_of r1) (key_of r2) <->
  row_T r1 < row_T r2 \/ (row_T r1 = row_T r2 /\ side r1 = BUY /\ side r2 = SELL).
Proof.
  unfold key_lt, Key_compare, key_of. simpl.
  destruct (Z.compare_spec (row_T r1) (row_T r2)) as [E | L | G].
  - destruct (side r1), (side r2); simpl; split; intros H;
      try discriminate; try lia; try (right; auto; fail); try reflexivity;
      destruct H as [H | [_ [H1 H2]]]; try lia; try discriminate.
  - split; auto.
  - split; [discriminate | lia].
Qed.

Lemma grouped_rows_ascending (rs : list Row) :
  StronglySorted (fun r1 r2 => key_lt (key_of r1) (key_of r2))
                 (map Pandas.group_row (Pandas.group_rows rs)).
Proof.
  apply StronglySorted_map with (R := fun r1 r2 => key_lt (key_of r1) (key_of r2)).
  apply StronglySorted_impl with (2 := group_rows_ascending rs).
  intros g1 g2 H. now rewrite !key_of_group_row.
Qed.

(** ** [find_largest_trades] *)

Lemma find_largest_trades_Ok (df : DataFrame) (n : Z) (res : DataFrame) :
  BTC_Tracking.find_largest_trades df n = Ok res <->
  exists grouped,
    Pandas.groupby_sum "T" df = Ok grouped /\ res = Pandas.nlargest n amount_usdt grouped.
Proof.
  unfold BTC_Tracking.find_largest_trades. rewrite bind_Ok.
  split; intros [grouped [H1 H2]]; exists grouped; split; congruence.
Qed.

Lemma test_py_find_largest_trades_Ok (df : DataFrame) (n : Z) (res : DataFrame) :
  test_py.find_largest_trades df n = Ok res <->
  exists grouped,
    Pandas.groupby_sum "timestamp_us" df = Ok grouped /\
    res = Pandas.nlargest n amount_usdt grouped.
Proof.
  unfold test_py.find_largest_trades, Pandas.duplicated. split.
  - intros H. apply bind_Ok in H as [dup [_ H]]. apply bind_Ok in H as [grouped [H1 H2]].
    exists grouped. split; congruence.
  - intros [grouped [H1 ->]]. pose proof H1 as H1'.
    apply groupby_sum_Ok in H1' as [[Hm _] _]. rewrite Hm.
    destruct (rows df); simpl; rewrite H1; reflexivity.
Qed.

Lemma variant_Ok (find : DataFrame -> Z -> result DataFrame) (time_label : string) :
  variant find time_label ->
  forall df n res,
    find df n = Ok res <->
    exists grouped,
      Pandas.groupby_sum time_label df = Ok grouped /\
      res = Pandas.nlargest n amount_usdt grouped.
Proof.
  intros [[-> ->] | [-> ->]] df n res.
  - apply find_largest_trades_Ok.
  - apply test_py_find_largest_trades_Ok.
Qed.

(** C2. On a frame that carries the four columns, [find_largest_trades]
    (either file) returns a frame whose rows are in descending order of the
    summed notional value (a row whose sum is NaN, which takes infinities of
    both signs in one group, stands last), of length min(N, number of
    distinct (time, side) groups): at most N for a count N, and less than N
    only when there are fewer than N groups. *)
Theorem C2_top_n_sorted_and_bounded :
  forall (find : DataFrame -> Z -> result DataFrame) (time_label : string),
    variant find time_label ->
    forall (df : DataFrame) (n : Z),
      has_columns time_label df ->
      exists res,
        find df n = Ok res /\
        StronglySorted (ranked_before amount_usdt) (rows res) /\
        List.length (rows res) = Nat.min (Z.to_nat n) (distinct_groups (rows df)) /\
        (0 <= n -> Z.of_nat (List.length (rows res)) <= n) /\
        (Z.of_nat (List.length (rows res)) < n ->
         Z.of_nat (distinct_groups (rows df)) < n).
Proof.
  intros find time_label Hv df n Hcols.
  set (grouped := mkDataFrame [time_label; "side"; "amount_btc"; "amount_usdt"]
                              (map Pandas.group_row (Pandas.group_rows (rows df)))).
  assert (Hg : Pandas.groupby_sum time_label df = Ok grouped)
    by (apply groupby_sum_Ok; auto).
  exists (Pandas.nlargest n amount_usdt grouped).
  assert (Hlen : List.length (rows (Pandas.nlargest n amount_usdt grouped))
                 = Nat.min (Z.to_nat n) (distinct_groups (rows df))).
  { rewrite nlargest_rows, length_firstn.
    rewrite (Permutation_length (ranking_Permutation amount_usdt (rows grouped))).
    unfold grouped. simpl. now rewrite grouped_length. }
  split; [apply (variant_Ok find time_label Hv); eauto |].
  split; [rewrite nlargest_rows; apply StronglySorted_firstn, ranking_sorted |].
  split; [exact Hlen |]. rewrite Hlen. split; lia.
Qed.

Lemma tied_frame_has_columns : has_columns "T" tied_frame.
Proof. split; reflexivity. Defined.

Lemma C2_top_n_witness :
  has_columns "T" tied_frame /\
  exists res,
    BTC_Tracking.find_largest_trades tied_frame 2 = Ok res /\
    StronglySorted (ranked_before amount_usdt) (rows res) /\
    List.length (rows res) = Nat.min (Z.to_nat 2) (distinct_groups (rows tied_frame)) /\
    (0 <= 2 -> Z.of_nat (List.length (rows res)) <= 2) /\
    (Z.of_nat (List.length (rows res)) < 2 ->
     Z.of_nat (distinct_groups (rows tied_frame)) < 2).
Proof.
  split.
  - exact tied_frame_has_columns.
  - apply (C2_top_n_sorted_and_bounded BTC_Tracking.find_largest_trades "T").
    + left. split; reflexivity.
    + exact tied_frame_has_columns.
Defined.

(** C10. [find_largest_trades] is a function of its arguments.  The grouped
    table is in ascending (time, side) order, and the result is the first N
    rows of one ranking of that table in which two rows of equal summed
    notional value stand in the order of the table: the earlier time first
    and, at one time, BUY before SELL.  So among tied groups both the choice
    of the rows returned and their order favour the smaller key. *)
Theorem C10_ties_keep_key_order :
  forall (find : DataFrame -> Z -> result DataFrame) (time_label : string),
    variant find time_label ->
    forall (df : DataFrame) (n : Z),
      has_columns time_label df ->
      exists grouped res order,
        Pandas.groupby_sum time_label df = Ok grouped /\
        find df n = Ok res /\
        StronglySorted (fun r1 r2 => key_lt (key_of r1) (key_of r2)) (rows grouped) /\
        Permutation order (rows grouped) /\
        rows res = firstn (Z.to_nat n) order /\
        (forall l1 r1 l2 r2 l3,
            order = l1 ++ r1 :: l2 ++ r2 :: l3 ->
            (amount_usdt r1 =? amount_usdt r2)%float = true ->
            row_T r1 < row_T r2 \/
            (row_T r1 = row_T r2 /\ side r1 = BUY /\ side r2 = SELL)) /\
        (forall df' n', df' = df -> n' = n -> find df' n' = find df n).
Proof.
  intros find time_label Hv df n Hcols.
  set (grouped := mkDataFrame [time_label; "side"; "amount_btc"; "amount_usdt"]
                              (map Pandas.group_row (Pandas.group_rows (rows df)))).
  assert (Hg : Pandas.groupby_sum time_label df = Ok grouped)
    by (apply groupby_sum_Ok; auto).
  exists grouped, (Pandas.nlargest n amount_usdt grouped),
         (ranking amount_usdt (rows grouped)).
  split; [exact Hg |].
  split; [apply (variant_Ok find time_label Hv); eauto |].
  split; [apply grouped_rows_ascending |].
  split; [apply ranking_Permutation |].
  split; [apply nlargest_rows |].
  split.
  - intros l1 r1 l2 r2 l3 E Htie. apply key_lt_spelled.
    apply (ranking_ties (fun r1 r2 => key_lt (key_of r1) (key_of r2))
                        amount_usdt (rows grouped)) with l1 l2 l3; auto.
    apply grouped_rows_ascending.
  - intros df' n' -> ->. reflexivity.
Qed.

Lemma C10_ties_witness :
  has_columns "T" tied_frame /\
  exists grouped res order,
    Pandas.groupby_sum "T" tied_frame = Ok grouped /\
    BTC_Tracking.find_largest_trades tied_frame 2 = Ok res /\
    StronglySorted (fun r1 r2 => key_lt (key_of r1) (key_of r2)) (rows grouped) /\
    Permutation order (rows grouped) /\
    rows res = firstn (Z.to_nat 2) order /\
    (forall l1 r1 l2 r2 l3,
        order = l1 ++ r1 :: l2 ++ r2 :: l3 ->
        (amount_usdt r1 =? amount_usdt r2)%float = true ->
        row_T r1 < row_T r2 \/
        (row_T r1 = row_T r2 /\ side r1 = BUY /\ side r2 = SELL)) /\
    (forall df' n', df' = tied_frame -> n' = 2 ->
                    BTC_Tracking.find_largest_trades df' n'
                    = BTC_Tracking.find_largest_trades tied_frame 2).
Proof.
  split.
  - exact tied_frame_has_columns.
  - apply (C10_ties_keep_key_order BTC_Tracking.find_largest_trades "T").
    + left. split; reflexivity.
    + exact tied_frame_has_columns.
Defined.

(** The tie at work: the groups (5, BUY) and (5, SELL) both sum to 7, and
    with N = 2 the one returned after the group of 11 is (5, BUY). *)
Example tied_frame_top_2 :
  BTC_Tracking.find_largest_trades tied_frame 2
  = Ok (mkDataFrame ["T"; "side"; "amount_btc"; "amount_usdt"]
                    [mkRow 2 2 11 BUY; mkRow 5 2 7 BUY]) /\
  BTC_Tracking.find_largest_trades tied_frame 5
  = Ok (mkDataFrame ["T"; "side"; "amount_btc"; "amount_usdt"]
                    [mkRow 2 2 11 BUY; mkRow 5 2 7 BUY; mkRow 5 1 7 SELL;
                     mkRow 2 1 3 SELL; mkRow 9 1 1 BUY]).
Proof. split; vm_compute; reflexivity. Qed.

(** ** The fetch loop *)

Lemma run_stopped (body : Params -> list RawTrade -> nat -> Loop) (fuel : nat) (st : Loop) :
  stopped st -> run body fuel st = st.
Proof. destruct st, fuel; simpl; intros H; try reflexivity; contradiction. Qed.

Lemma run_S (body : Params -> list RawTrade -> nat -> Loop) (fuel : nat)
    (params : Params) (trades : list RawTrade) (rc : nat) :
  run body (S fuel) (Requesting params trades rc) = run body fuel (body params trades rc).
Proof. reflexivity. Qed.

Lemma run_add (body : Params -> list RawTrade -> nat -> Loop) (j k : nat) :
  forall st, run body (j + k) st = run body k (run body j st).
Proof.
  induction j as [| j IH]; intros st.
  - destruct st; reflexivity.
  - destruct st as [params trades rc | trades |].
    + simpl. apply IH.
    + simpl. now rewrite run_stopped.
    + simpl. now rewrite run_stopped.
Qed.

Lemma run_more (body : Params -> list RawTrade -> nat -> Loop) (j fuel : nat) (st : Loop) :
  stopped (run body j st) -> (j <= fuel)%nat -> run body fuel st = run body j st.
Proof.
  intros Hs Hle. replace fuel with (j + (fuel - j))%nat by lia.
  rewrite run_add. now apply run_stopped.
Qed.

(** A property of loop states that the body keeps holds all along. *)
Lemma run_invariant (body : Params -> list RawTrade -> nat -> Loop) (Inv : Loop -> Prop) :
  (forall params trades rc, Inv (Requesting params trades rc) -> Inv (body params trades rc)) ->
  forall fuel st, Inv st -> Inv (run body fuel st).
Proof.
  intros Hbody. induction fuel as [| fuel IH]; intros st Hst.
  - destruct st; exact Hst.
  - destruct st as [params trades rc | trades |]; simpl; auto.
Qed.

Lemma last_trade_In (data : list RawTrade) (last : RawTrade) :
  last_trade data = Some last -> In last data.
Proof.
  induction data as [| t [| t' data] IH]; simpl; intros H.
  - discriminate.
  - injection H as ->. now left.
  - right. now apply IH.
Qed.

Lemma last_trade_None (data : list RawTrade) : last_trade data = None <-> data = [].
Proof.
  induction data as [| t [| t' data] IH]; simpl; split; try congruence.
  - intros H. apply IH in H. discriminate.
Qed.

(** What one pass of the loop of [BTC_Tracking.get_trades] comes to. *)
Lemma loop_body_cases (api : Exchange) (symbol : string) (end_time : Z)
    (params : Params) (trades : list RawTrade) (rc : nat) :
  (api rc params = RequestError /\
   BTC_Tracking.loop_body api symbol end_time params trades rc = Failed) \/
  (api rc params = Json [] /\
   BTC_Tracking.loop_body api symbol end_time params trades rc = Finished trades) \/
  (exists data last,
      api rc params = Json data /\ last_trade data = Some last /\
      end_time <= raw_T last /\
      BTC_Tracking.loop_body api symbol end_time params trades rc
      = Finished (trades ++ data)) \/
  (exists data last,
      api rc params = Json data /\ last_trade data = Some last /\
      raw_T last < end_time /\
      BTC_Tracking.loop_body api symbol end_time params trades rc
      = Requesting (mkParams symbol None None (Some (raw_a last + 1)) 1000)
                   (trades ++ data) (S rc)).
Proof.
  unfold BTC_Tracking.loop_body.
  destruct (api rc params) as [| data]; [now left |].
  destruct (last_trade data) as [last |] eqn:L.
  - destruct (Z.leb_spec end_time (raw_T last)).
    + right. right. left. exists data, last. auto.
    + right. right. right. exists data, last. auto.
  - apply last_trade_None in L. subst. right. left. auto.
Qed.

(** The same for [test.py]. *)
Lemma test_py_loop_body_cases (api : Exchange) (end_time : Z)
    (params : Params) (trades : list RawTrade) (rc : nat) :
  (api rc params = RequestError /\
   test_py.loop_body api end_time params trades rc = Failed) \/
  (api rc params = Json [] /\
   test_py.loop_body api end_time params trades rc = Finished trades) \/
  (exists data last,
      api rc params = Json data /\ last_trade data = Some last /\
      end_time <= raw_T last + 1 /\
      test_py.loop_body api end_time params trades rc = Finished (trades ++ data)) \/
  (exists data last,
      api rc params = Json data /\ last_trade data = Some last /\
      raw_T last + 1 < end_time /\
      test_py.loop_body api end_time params trades rc
      = Requesting (mkParams (symbol params) (Some (raw_T last + 1)) (endTime params)
                             (fromId params) (limit params))
                   (trades ++ data) (S rc)).
Proof.
  unfold test_py.loop_body.
  destruct (api rc params) as [| data]; [now left |].
  destruct (last_trade data) as [last |] eqn:L.
  - destruct (Z.leb_spec end_time (raw_T last + 1)).
    + right. right. left. exists data, last. auto.
    + right. right. right. exists data, last. auto.
  - apply last_trade_None in L. subst. right. left. auto.
Qed.

Lemma fetch_fails (body : Params -> list RawTrade -> nat -> Loop) (j fuel : nat)
    (init : Loop) (params : Params) (trades : list RawTrade) (rc : nat) :
  run body j init = Requesting params trades rc ->
  body params trades rc = Failed ->
  (j < fuel)%nat ->
  run body fuel init = Failed.
Proof.
  intros Hj Hbody Hlt. replace fuel with (j + S (fuel - j - 1))%nat by lia.
  rewrite run_add, Hj, run_S, Hbody. now apply run_stopped.
Qed.

(** C4. When a request of the fetch loop raises, whatever the pages
    gathered before it, [get_trades] returns the empty list (both files): the
    very value it returns for a window whose first page is empty. *)
Theorem C4_request_error_returns_empty_list :
  forall (api : Exchange) (symbol : string) (start_time end_time : Z)
         (j fuel : nat) (params : Params) (trades : list RawTrade) (rc : nat),
    api rc params = RequestError ->
    (j < fuel)%nat ->
    (BTC_Tracking.fetch api j symbol start_time end_time = Requesting params trades rc ->
     BTC_Tracking.get_trades api fuel symbol start_time end_time = Some []) /\
    (test_py.fetch api j symbol start_time end_time = Requesting params trades rc ->
     test_py.get_trades api fuel symbol start_time end_time = Some []) /\
    (forall quiet : Exchange,
        quiet O (BTC_Tracking.first_params symbol start_time) = Json [] ->
        BTC_Tracking.get_trades quiet fuel symbol start_time end_time = Some []) /\
    (forall quiet : Exchange,
        quiet O (test_py.first_params symbol start_time end_time) = Json [] ->
        test_py.get_trades quiet fuel symbol start_time end_time = Some []).
Proof.
  intros api symbol start_time end_time j fuel params trades rc Herr Hlt.
  repeat split.
  - intros Hj. unfold BTC_Tracking.get_trades, BTC_Tracking.fetch in *.
    rewrite (fetch_fails _ j fuel _ params trades rc Hj); auto.
    unfold BTC_Tracking.loop_body. now rewrite Herr.
  - intros Hj. unfold test_py.get_trades, test_py.fetch in *.
    rewrite (fetch_fails _ j fuel _ params trades rc Hj); auto.
    unfold test_py.loop_body. now rewrite Herr.
  - intros quiet Hq. unfold BTC_Tracking.get_trades, BTC_Tracking.fetch.
    destruct fuel as [| fuel]; [lia |]. rewrite run_S.
    unfold BTC_Tracking.loop_body at 2. rewrite Hq. simpl.
    rewrite run_stopped by exact I. reflexivity.
  - intros quiet Hq. unfold test_py.get_trades, test_py.fetch.
    destruct fuel as [| fuel]; [lia |]. rewrite run_S.
    unfold test_py.loop_body at 2. rewrite Hq. simpl.
    rewrite run_stopped by exact I. reflexivity.
Qed.

Lemma C4_request_error_witness :
  let api := failing_at 1 (serve sample_trades) in
  let params := mkParams "BTCUSDT" None None (Some 4) 1000 in
  api 1%nat params = RequestError /\
  BTC_Tracking.fetch api 1 "BTCUSDT" 1000000 2000000 = Requesting params sample_trades 1 /\
  BTC_Tracking.get_trades api 5 "BTCUSDT" 1000000 2000000 = Some [].
Proof.
  intros api params.
  assert (H1 : api 1%nat params = RequestError) by reflexivity.
  assert (H2 : BTC_Tracking.fetch api 1 "BTCUSDT" 1000000 2000000
               = Requesting params sample_trades 1) by (vm_compute; reflexivity).
  split; [exact H1 |]. split; [exact H2 |].
  refine (proj1 (C4_request_error_returns_empty_list
                   api "BTCUSDT" 1000000 2000000 1 5 params sample_trades 1 H1 _) H2).
  repeat constructor.
Defined.

Lemma in_window_spec (start_time end_time : Z) (t : RawTrade) :
  in_window start_time end_time t = true <-> start_time <= raw_T t <= end_time.
Proof. unfold in_window. rewrite andb_true_iff, !Z.leb_le. tauto. Qed.

(** In [test.py] nothing is filtered after the fetch: the window is kept by
    the exchange, asked with [startTime] and [endTime] at every request. *)
Lemma test_py_fetch_in_window (api : Exchange) (symbol : string) (start_time end_time : Z) :
  honours_startTime api -> honours_endTime api ->
  forall fuel served,
    test_py.fetch api fuel symbol start_time end_time = Finished served ->
    Forall (fun t => start_time <= raw_T t <= end_time) served.
Proof.
  intros Hstart Hend fuel served Hf.
  set (Inv := fun st : Loop =>
         match st with
         | Requesting params trades _ =>
             (exists c, startTime params = Some c /\ start_time <= c) /\
             endTime params = Some end_time /\
             Forall (fun t => start_time <= raw_T t <= end_time) trades
         | Finished trades => Forall (fun t => start_time <= raw_T t <= end_time) trades
         | Failed => True
         end).
  assert (H : Inv (test_py.fetch api fuel symbol start_time end_time)).
  { unfold test_py.fetch. apply run_invariant.
    - intros params trades rc [[c [Hc Hle]] [He Htr]].
      assert (Hdata : forall data, api rc params = Json data ->
                Forall (fun t => start_time <= raw_T t <= end_time) (trades ++ data)).
      { intros data Hd. apply Forall_app. split; [exact Htr |].
        pose proof (Hstart _ _ _ _ Hd Hc) as H1. pose proof (Hend _ _ _ _ Hd He) as H2.
        rewrite Forall_forall in *. intros t Hin.
        specialize (H1 t Hin). specialize (H2 t Hin). simpl in *. lia. }
      destruct (test_py_loop_body_cases api end_time params trades rc)
        as [[_ ->] | [[_ ->] | [[data [last [Hd [_ [_ ->]]]]] | [data [last [Hd [Hl [_ ->]]]]]]]];
        simpl; auto.
      split; [| split; auto].
      exists (raw_T last + 1). split; [reflexivity |].
      pose proof (Hstart _ _ _ _ Hd Hc) as H1. rewrite Forall_forall in H1.
      specialize (H1 last (last_trade_In _ _ Hl)). simpl in H1. lia.
    - simpl. split; [exists start_time; split; [reflexivity | lia] |]. split; auto. }
  rewrite Hf in H. exact H.
Qed.

Lemma sample_trades_NoDup : NoDup sample_trades.
Proof.
  repeat constructor; simpl; intuition discriminate.
Defined.

(** *** Termination of the ID-based loop *)

Section IdBasedTermination.

Variables (api : Exchange) (symbol : string) (end_time lo hi : Z).
Hypothesis api_fromId : honours_fromId api.
(** Only finitely many trades precede the end of the window: their ids lie
    between [lo] and [hi]. *)
Hypothesis ids_before_end :
  forall i params data t,
    api i params = Json data -> In t data -> raw_T t < end_time -> lo <= raw_a t <= hi.

Lemma id_loop_stops_from (k : nat) :
  forall c params trades rc,
    fromId params = Some c ->
    hi + 1 - c <= Z.of_nat k ->
    stopped (run (BTC_Tracking.loop_body api symbol end_time) (S k)
                 (Requesting params trades rc)).
Proof.
  induction k as [| k IH]; intros c params trades rc Hc Hk; rewrite run_S;
    destruct (loop_body_cases api symbol end_time params trades rc)
      as [[_ ->] | [[_ ->] | [[data [last [_ [_ [_ ->]]]]] | [data [last [Hd [Hl [Hlt ->]]]]]]]];
    try (rewrite run_stopped; exact I).
  - exfalso. pose proof (last_trade_In _ _ Hl) as Hin.
    pose proof (api_fromId _ _ _ _ Hd Hc) as Hge. rewrite Forall_forall in Hge.
    specialize (Hge last Hin). pose proof (ids_before_end _ _ _ _ Hd Hin Hlt). simpl in *. lia.
  - apply (IH (raw_a last + 1)); [reflexivity |].
    pose proof (last_trade_In _ _ Hl) as Hin.
    pose proof (api_fromId _ _ _ _ Hd Hc) as Hge. rewrite Forall_forall in Hge.
    specialize (Hge last Hin). simpl in Hge. lia.
Qed.

Lemma id_loop_stops (start_time : Z) (fuel : nat) :
  (Z.to_nat (hi - lo) + 2 <= fuel)%nat ->
  stopped (BTC_Tracking.fetch api fuel symbol start_time end_time).
Proof.
  intros Hfuel. unfold BTC_Tracking.fetch.
  set (init := Requesting (BTC_Tracking.first_params symbol start_time) [] 0).
  assert (H : stopped (run (BTC_Tracking.loop_body api symbol end_time)
                           (S (S (Z.to_nat (hi - lo)))) init)).
  { unfold init. rewrite run_S.
    destruct (loop_body_cases api symbol end_time
                (BTC_Tracking.first_params symbol start_time) [] 0)
      as [[_ ->] | [[_ ->] | [[data [last [_ [_ [_ ->]]]]] | [data [last [Hd [Hl [Hlt ->]]]]]]]];
      try (rewrite run_stopped; exact I).
    apply (id_loop_stops_from _ (raw_a last + 1)); [reflexivity |].
    pose proof (ids_before_end _ _ _ _ Hd (last_trade_In _ _ Hl) Hlt). lia. }
  rewrite (run_more _ (S (S (Z.to_nat (hi - lo)))) fuel init H); [exact H | lia].
Qed.

End IdBasedTermination.

(** *** Termination of the time-based loop *)

Section TimeBasedTermination.

Variables (api : Exchange) (end_time : Z).
Hypothesis api_startTime : honours_startTime api.

Lemma time_loop_stops_from (k : nat) :
  forall c params trades rc,
    startTime params = Some c ->
    end_time - c <= Z.of_nat k ->
    stopped (run (test_py.loop_body api end_time) (S k) (Requesting params trades rc)).
Proof.
  induction k as [| k IH]; intros c params trades rc Hc Hk; rewrite run_S;
    destruct (test_py_loop_body_cases api end_time params trades rc)
      as [[_ ->] | [[_ ->] | [[data [last [_ [_ [_ ->]]]]] | [data [last [Hd [Hl [Hlt ->]]]]]]]];
    try (rewrite run_stopped; exact I).
  - exfalso. pose proof (api_startTime _ _ _ _ Hd Hc) as Hge. rewrite Forall_forall in Hge.
    specialize (Hge last (last_trade_In _ _ Hl)). simpl in Hge. lia.
  - apply (IH (raw_T last + 1)); [reflexivity |].
    pose proof (api_startTime _ _ _ _ Hd Hc) as Hge. rewrite Forall_forall in Hge.
    specialize (Hge last (last_trade_In _ _ Hl)). simpl in Hge. lia.
Qed.

Lemma time_loop_stops (symbol : string) (start_time : Z) (fuel : nat) :
  (Z.to_nat (end_time - start_time) + 1 <= fuel)%nat ->
  stopped (test_py.fetch api fuel symbol start_time end_time).
Proof.
  intros Hfuel. unfold test_py.fetch.
  set (init := Requesting (test_py.first_params symbol start_time end_time) [] 0).
  assert (H : stopped (run (test_py.loop_body api end_time)
                           (S (Z.to_nat (end_time - start_time))) init)).
  { apply (time_loop_stops_from _ start_time); [reflexivity | lia]. }
  rewrite (run_more _ (S (Z.to_nat (end_time - start_time))) fuel init H); [exact H | lia].
Qed.

End TimeBasedTermination.

Lemma get_trades_returns (api : Exchange) (fuel : nat) (symbol : string)
    (start_time end_time : Z) :
  stopped (BTC_Tracking.fetch api fuel symbol start_time end_time) ->
  exists result, BTC_Tracking.get_trades api fuel symbol start_time end_time = Some result.
Proof.
  unfold BTC_Tracking.get_trades.
  destruct (BTC_Tracking.fetch api fuel symbol start_time end_time); simpl; intros H;
    [contradiction | eauto | eauto].
Qed.

Lemma test_py_get_trades_returns (api : Exchange) (fuel : nat) (symbol : string)
    (start_time end_time : Z) :
  stopped (test_py.fetch api fuel symbol start_time end_time) ->
  exists result, test_py.get_trades api fuel symbol start_time end_time = Some result.
Proof.
  unfold test_py.get_trades.
  destruct (test_py.fetch api fuel symbol start_time end_time); simpl; intros H;
    [contradiction | eauto | eauto].
Qed.

(** C9, as stated, fails for [test.py]: its loop is left as soon as the next
    [startTime], the last time plus one, has reached the end of the window.
    With the window end 10 and a page whose last trade is at time 9 the loop
    is left, though the page is not empty and 9 is before the end. *)
Lemma C9_time_based_stop_counterexample :
  ~ (forall api end_time params trades rc,
        (exists ts, test_py.loop_body api end_time params trades rc = Finished ts) <->
        (exists data,
            api rc params = Json data /\
            (data = [] \/
             exists last, last_trade data = Some last /\ end_time <= raw_T last))).
Proof.
  intros H.
  destruct (proj1 (H boundary_exchange 10 (test_py.first_params "BTCUSDT" 0 10) [] O))
    as [data [Hd Hstop]].
  - eexists. vm_compute. reflexivity.
  - injection Hd as <-. destruct Hstop as [Hnil | [last [Hl Hle]]].
    + discriminate.
    + injection Hl as <-. vm_compute in Hle. apply Hle. reflexivity.
Qed.

(** C9, amended.  In [BTC_Tracking.py] the loop is left by [break] exactly
    when the page is empty or its last trade is at or after the end of the
    window; in [test.py] exactly when the page is empty or the last time plus
    one is at or after the end.  A pass that goes on sets the cursor to the
    last id plus one ([fromId]), respectively the last time plus one
    ([startTime]); when the exchange serves nothing below the cursor it was
    asked with, the new cursor is greater than the old one.  With such an
    exchange the loop is left within a bounded number of passes: the number
    of ids that trades before the end of the window can have, plus two, when
    paging by id; the length of the window plus one when paging by time. *)
Theorem C9_cursor_stop_and_termination :
  forall (api : Exchange) (symbol : string) (start_time end_time : Z),
    ((forall params trades rc,
         (exists ts, BTC_Tracking.loop_body api symbol end_time params trades rc = Finished ts)
         <->
         (exists data,
             api rc params = Json data /\
             (data = [] \/
              exists last, last_trade data = Some last /\ end_time <= raw_T last))) /\
     (forall params trades rc params' trades' rc',
         BTC_Tracking.loop_body api symbol end_time params trades rc
         = Requesting params' trades' rc' ->
         exists data last,
           api rc params = Json data /\ last_trade data = Some last /\
           fromId params' = Some (raw_a last + 1) /\
           (honours_fromId api -> forall c, fromId params = Some c -> c < raw_a last + 1)) /\
     (honours_fromId api ->
      forall lo hi,
        (forall i params data t,
            api i params = Json data -> In t data -> raw_T t < end_time ->
            lo <= raw_a t <= hi) ->
        forall fuel,
          (Z.to_nat (hi - lo) + 2 <= fuel)%nat ->
          exists result,
            BTC_Tracking.get_trades api fuel symbol start_time end_time = Some result)) /\
    ((forall params trades rc,
         (exists ts, test_py.loop_body api end_time params trades rc = Finished ts)
         <->
         (exists data,
             api rc params = Json data /\
             (data = [] \/
              exists last, last_trade data = Some last /\ end_time <= raw_T last + 1))) /\
     (forall params trades rc params' trades' rc',
         test_py.loop_body api end_time params trades rc = Requesting params' trades' rc' ->
         exists data last,
           api rc params = Json data /\ last_trade data = Some last /\
           startTime params' = Some (raw_T last + 1) /\
           (honours_startTime api ->
            forall c, startTime params = Some c -> c < raw_T last + 1)) /\
     (honours_startTime api ->
      forall fuel,
        (Z.to_nat (end_time - start_time) + 1 <= fuel)%nat ->
        exists result,
          test_py.get_trades api fuel symbol start_time end_time = Some result)).
Proof.
  intros api symbol start_time end_time. split; split.
  - intros params trades rc.
    destruct (loop_body_cases api symbol end_time params trades rc)
      as [[Hd ->] | [[Hd ->] | [[data [last [Hd [Hl [Hle ->]]]]] | [data [last [Hd [Hl [Hlt ->]]]]]]]];
      split.
    + intros [ts H]. discriminate.
    + intros [data [Hd' _]]. congruence.
    + intros _. exists []. auto.
    + intros _. eauto.
    + intros _. exists data. split; [exact Hd |]. right. eauto.
    + intros _. eauto.
    + intros [ts H]. discriminate.
    + intros [data' [Hd' [-> | [last' [Hl' Hle]]]]].
      * rewrite Hd in Hd'. injection Hd' as ->. discriminate.
      * rewrite Hd in Hd'. injection Hd' as <-. rewrite Hl in Hl'. injection Hl' as <-. lia.
  - split.
    + intros params trades rc params' trades' rc' H.
      destruct (loop_body_cases api symbol end_time params trades rc)
        as [[_ E] | [[_ E] | [[data [last [_ [_ [_ E]]]]] | [data [last [Hd [Hl [Hlt E]]]]]]]];
        rewrite E in H; try discriminate.
      injection H as <- <- <-. exists data, last. repeat split; auto.
      intros Hapi c Hc. pose proof (Hapi _ _ _ _ Hd Hc) as Hge.
      rewrite Forall_forall in Hge. specialize (Hge last (last_trade_In _ _ Hl)).
      simpl in Hge. lia.
    + intros Hapi lo hi Hids fuel Hfuel. apply get_trades_returns.
      now apply (id_loop_stops api symbol end_time lo hi).
  - intros params trades rc.
    destruct (test_py_loop_body_cases api end_time params trades rc)
      as [[Hd ->] | [[Hd ->] | [[data [last [Hd [Hl [Hle ->]]]]] | [data [last [Hd [Hl [Hlt ->]]]]]]]];
      split.
    + intros [ts H]. discriminate.
    + intros [data [Hd' _]]. congruence.
    + intros _. exists []. auto.
    + intros _. eauto.
    + intros _. exists data. split; [exact Hd |]. right. eauto.
    + intros _. eauto.
    + intros [ts H]. discriminate.
    + intros [data' [Hd' [-> | [last' [Hl' Hle]]]]].
      * rewrite Hd in Hd'. injection Hd' as ->. discriminate.
      * rewrite Hd in Hd'. injection Hd' as <-. rewrite Hl in Hl'. injection Hl' as <-. lia.
  - split.
    + intros params trades rc params' trades' rc' H.
      destruct (test_py_loop_body_cases api end_time params trades rc)
        as [[_ E] | [[_ E] | [[data [last [_ [_ [_ E]]]]] | [data [last [Hd [Hl [Hlt E]]]]]]]];
        rewrite E in H; try discriminate.
      injection H as <- <- <-. exists data, last. repeat split; auto.
      intros Hapi c Hc. pose proof (Hapi _ _ _ _ Hd Hc) as Hge.
      rewrite Forall_forall in Hge. specialize (Hge last (last_trade_In _ _ Hl)).
      simpl in Hge. lia.
    + intros Hapi fuel Hfuel. apply test_py_get_trades_returns.
      now apply (time_loop_stops api end_time Hapi).
Qed.

(** The exchange that serves a fixed history keeps the three contracts. *)
Lemma serve_matches (history : list RawTrade) (i : nat) (params : Params)
    (data : list RawTrade) :
  serve history i params = Json data ->
  Forall (fun t => In t history /\ matches params t = true) data.
Proof.
  unfold serve. intros H. injection H as <-. apply Forall_forall. intros t Hin.
  apply filter_In. rewrite <- (firstn_skipn (Z.to_nat (limit params))).
  apply in_or_app. now left.
Qed.

Lemma serve_honours_fromId (history : list RawTrade) : honours_fromId (serve history).
Proof.
  intros i params data c Hd Hc. apply serve_matches in Hd.
  revert Hd. apply Forall_impl. intros t [_ Hm]. unfold matches in Hm. rewrite Hc in Hm.
  apply andb_true_iff in Hm as [Hm _]. apply andb_true_iff in Hm as [Hm _].
  now apply Z.leb_le.
Qed.

Lemma serve_honours_startTime (history : list RawTrade) : honours_startTime (serve history).
Proof.
  intros i params data c Hd Hc. apply serve_matches in Hd.
  revert Hd. apply Forall_impl. intros t [_ Hm]. unfold matches in Hm. rewrite Hc in Hm.
  apply andb_true_iff in Hm as [Hm _]. apply andb_true_iff in Hm as [_ Hm].
  now apply Z.leb_le.
Qed.

Lemma serve_honours_endTime (history : list RawTrade) : honours_endTime (serve history).
Proof.
  intros i params data c Hd Hc. apply serve_matches in Hd.
  revert Hd. apply Forall_impl. intros t [_ Hm]. unfold matches in Hm. rewrite Hc in Hm.
  apply andb_true_iff in Hm as [_ Hm]. now apply Z.leb_le.
Qed.

Lemma C9_termination_witness :
  honours_fromId (serve sample_trades) /\
  (forall i params data t,
      serve sample_trades i params = Json data -> In t data -> raw_T t < 2000000 ->
      1 <= raw_a t <= 3) /\
  exists result,
    BTC_Tracking.get_trades (serve sample_trades) 4 "BTCUSDT" 1000000 2000000 = Some result.
Proof.
  assert (Hids : forall i params data t,
             serve sample_trades i params = Json data -> In t data -> raw_T t < 2000000 ->
             1 <= raw_a t <= 3).
  { intros i params data t Hd Hin _. apply serve_matches in Hd.
    rewrite Forall_forall in Hd. destruct (Hd t Hin) as [Hh _].
    simpl in Hh. destruct Hh as [<- | [<- | [<- | []]]]; simpl; lia. }
  split; [apply serve_honours_fromId |]. split; [exact Hids |].
  refine (proj2 (proj2 (proj1 (C9_cursor_stop_and_termination
                                 (serve sample_trades) "BTCUSDT" 1000000 2000000)))
                (serve_honours_fromId sample_trades) 1 3 Hids 4%nat _).
  vm_compute. repeat constructor.
Defined.

(** ** The whole pipeline on an empty fetch *)

(** C5 fails on the code.  From an empty list [process_trades] builds a
    frame without any column, and [find_largest_trades] raises [KeyError] on
    it: in [BTC_Tracking.py] when grouping by ["T"], in [test.py] when
    grouping by ["timestamp_us"] (the duplicate check before it passes on a
    frame without rows).  [main] is left before the header is printed. *)
Theorem C5_empty_fetch_raises_KeyError :
  forall format_row : Row -> string,
    BTC_Tracking.process_trades [] = Ok (mkDataFrame [] []) /\
    BTC_Tracking.main_after_fetch format_row [] = Raise (KeyError ["T"]) /\
    test_py.process_trades [] = Ok (mkDataFrame [] []) /\
    exists labels, test_py.main_after_fetch format_row [] = Raise (KeyError labels).
Proof.
  intros format_row. repeat split. eexists. reflexivity.
Qed.

(** * Further properties of the code *)

(** ** The rows [find_largest_trades] leaves out *)

Lemma StronglySorted_across {A : Type} (R : A -> A -> Prop) (l1 l2 : list A) :
  StronglySorted R (l1 ++ l2) -> forall x y, In x l1 -> In y l2 -> R x y.
Proof.
  induction l1 as [| a l1 IH]; simpl; intros Hs x y Hx Hy; [contradiction |].
  apply StronglySorted_inv in Hs as [Hs Ha]. destruct Hx as [<- | Hx].
  - rewrite Forall_forall in Ha. apply Ha. apply in_or_app. now right.
  - now apply IH.
Qed.

(** X1. The rows returned are rows of the grouped table, and no group left out
    has a larger summed notional value than a group returned: the value of
    a row left out is at most that of every row returned, or it is NaN. *)
Theorem find_largest_trades_leaves_out_the_smallest :
  forall (find : DataFrame -> Z -> result DataFrame) (time_label : string),
    variant find time_label ->
    forall (df grouped res : DataFrame) (n : Z),
      Pandas.groupby_sum time_label df = Ok grouped ->
      find df n = Ok res ->
      exists left_out,
        Permutation (rows res ++ left_out) (rows grouped) /\
        forall r r', In r (rows res) -> In r' left_out ->
                     ranked_before amount_usdt r r'.
Proof.
  intros find time_label Hv df grouped res n Hg Hres.
  apply (variant_Ok find time_label Hv) in Hres as [grouped' [Hg' ->]].
  rewrite Hg in Hg'. injection Hg' as <-.
  exists (skipn (Z.to_nat n) (ranking amount_usdt (rows grouped))).
  rewrite nlargest_rows, firstn_skipn. split; [apply ranking_Permutation |].
  apply StronglySorted_across. rewrite firstn_skipn. apply ranking_sorted.
Qed.

Lemma tied_frame_groupby :
  Pandas.groupby_sum "T" tied_frame
  = Ok (mkDataFrame ["T"; "side"; "amount_btc"; "amount_usdt"]
                    [mkRow 2 2 11 BUY; mkRow 2 1 3 SELL; mkRow 5 2 7 BUY;
                     mkRow 5 1 7 SELL; mkRow 9 1 1 BUY]).
Proof. vm_compute. reflexivity. Defined.

Lemma tied_frame_largest_2 :
  BTC_Tracking.find_largest_trades tied_frame 2
  = Ok (mkDataFrame ["T"; "side"; "amount_btc"; "amount_usdt"]
                    [mkRow 2 2 11 BUY; mkRow 5 2 7 BUY]).
Proof. vm_compute. reflexivity. Defined.

Lemma find_largest_trades_leaves_out_witness :
  exists left_out,
    Permutation ([mkRow 2 2 11 BUY; mkRow 5 2 7 BUY] ++ left_out)
                [mkRow 2 2 11 BUY; mkRow 2 1 3 SELL; mkRow 5 2 7 BUY;
                 mkRow 5 1 7 SELL; mkRow 9 1 1 BUY] /\
    forall r r', In r [mkRow 2 2 11 BUY; mkRow 5 2 7 BUY] -> In r' left_out ->
                 ranked_before amount_usdt r r'.
Proof.
  exact (find_largest_trades_leaves_out_the_smallest
           BTC_Tracking.find_largest_trades "T" (or_introl (conj eq_refl eq_refl))
           tied_frame _ _ 2 tied_frame_groupby tied_frame_largest_2).
Defined.

(** ** The sizes of the groups *)

Lemma members_cons (k : Key) (r : Row) (rs : list Row) :
  List.length (members k (r :: rs))
  = ((if Key_eqb (key_of r) k then 1 else 0) + List.length (members k rs))%nat.
Proof. unfold members. simpl. destruct (Key_eqb (key_of r) k); reflexivity. Qed.

Lemma one_key_among (k0 : Key) (ks : list Key) :
  NoDup ks -> In k0 ks ->
  list_sum (map (fun k => if Key_eqb k0 k then 1%nat else 0%nat) ks) = 1%nat.
Proof.
  induction 1 as [| k ks Hnin Hnd IH]; simpl; intros Hin; [contradiction |].
  destruct Hin as [-> | Hin].
  - rewrite Key_eqb_refl.
    assert (E : list_sum (map (fun k => if Key_eqb k0 k then 1%nat else 0%nat) ks) = 0%nat).
    { clear IH Hnd. induction ks as [| k ks IH]; simpl; [reflexivity |].
      assert (Key_eqb k0 k = false) as ->.
      { apply Key_eqb_neq. intros ->. apply Hnin. now left. }
      apply IH. intros H. apply Hnin. now right. }
    now rewrite E.
  - assert (Key_eqb k0 k = false) as ->.
    { apply Key_eqb_neq. intros ->. contradiction. }
    now apply IH.
Qed.

Lemma members_sizes (ks : list Key) (rs : list Row) :
  NoDup ks -> (forall r, In r rs -> In (key_of r) ks) ->
  list_sum (map (fun k => List.length (members k rs)) ks) = List.length rs.
Proof.
  intros Hnd. induction rs as [| r rs IH]; intros Hks.
  - unfold members. simpl. clear Hnd Hks. induction ks as [| k ks IHks]; simpl; auto.
  - assert (E : forall l : list Key,
               list_sum (map (fun k => List.length (members k (r :: rs))) l)
               = (list_sum (map (fun k => if Key_eqb (key_of r) k then 1 else 0) l)
                  + list_sum (map (fun k => List.length (members k rs)) l))%nat).
    { induction l as [| k l IHl]; [reflexivity |].
      rewrite !map_cons. change (list_sum (?a :: ?m)) with (a + list_sum m)%nat.
      rewrite IHl, members_cons. lia. }
    rewrite E, one_key_among, IH; auto.
    + intros r' Hr'. apply Hks. now right.
    + apply Hks. now left.
Qed.

(** X2. Every row of the input is in the group of exactly one row of the
    grouped table: no group is empty, and the sizes of the groups add up to
    the number of input rows. *)
Theorem groupby_sum_partitions_the_rows :
  forall (time_label : string) (df grouped : DataFrame),
    Pandas.groupby_sum time_label df = Ok grouped ->
    (forall row, In row (rows grouped) -> members (key_of row) (rows df) <> []) /\
    list_sum (map (fun row => List.length (members (key_of row) (rows df))) (rows grouped))
    = List.length (rows df).
Proof.
  intros time_label df grouped H. apply groupby_sum_Ok in H as [_ ->]. simpl. split.
  - intros row Hin.
    assert (Hk : In (key_of row) (map key_of (rows df))).
    { apply group_rows_keys. rewrite <- map_key_of_group_row. now apply in_map. }
    apply in_map_iff in Hk as [r [E Hr]]. intros Hnil.
    assert (Hm : In r (members (key_of row) (rows df))).
    { apply filter_In. split; [exact Hr | now apply Key_eqb_eq]. }
    rewrite Hnil in Hm. contradiction.
  - rewrite <- (map_map key_of (fun k => List.length (members k (rows df)))).
    rewrite map_key_of_group_row. apply members_sizes.
    + apply keys_ascending_NoDup, group_rows_ascending.
    + intros r Hr. apply group_rows_keys. now apply in_map.
Qed.

Lemma groupby_sum_partitions_witness :
  (forall row, In row [mkRow 2 2 11 BUY; mkRow 2 1 3 SELL; mkRow 5 2 7 BUY;
                       mkRow 5 1 7 SELL; mkRow 9 1 1 BUY] ->
               members (key_of row) tied_records <> []) /\
  list_sum (map (fun row => List.length (members (key_of row) tied_records))
                [mkRow 2 2 11 BUY; mkRow 2 1 3 SELL; mkRow 5 2 7 BUY;
                 mkRow 5 1 7 SELL; mkRow 9 1 1 BUY])
  = List.length tied_records.
Proof.
  exact (groupby_sum_partitions_the_rows "T" tied_frame _ tied_frame_groupby).
Defined.

(** ** [main] on a fetch that is not empty *)

Lemma find_largest_trades_length (find : DataFrame -> Z -> result DataFrame)
    (time_label : string) (df : DataFrame) (n : Z) :
  variant find time_label ->
  has_columns time_label df ->
  exists res,
    find df n = Ok res /\
    List.length (rows res) = Nat.min (Z.to_nat n) (distinct_groups (rows df)).
Proof.
  intros Hv Hcols.
  set (grouped := mkDataFrame [time_label; "side"; "amount_btc"; "amount_usdt"]
                              (map Pandas.group_row (Pandas.group_rows (rows df)))).
  assert (Hg : Pandas.groupby_sum time_label df = Ok grouped)
    by (apply groupby_sum_Ok; auto).
  exists (Pandas.nlargest n amount_usdt grouped). split.
  - apply (variant_Ok find time_label Hv). eauto.
  - rewrite nlargest_rows, length_firstn.
    rewrite (Permutation_length (ranking_Permutation amount_usdt (rows grouped))).
    unfold grouped. simpl. now rewrite grouped_length.
Qed.

Lemma distinct_groups_bounds (rs : list Row) :
  rs <> [] -> (1 <= distinct_groups rs <= List.length rs)%nat.
Proof.
  intros Hne. unfold distinct_groups. split.
  - destruct rs as [| r rs]; [congruence |].
    assert (Hin : In (key_of r) (nodup Key_eq_dec (map key_of (r :: rs))))
      by (apply nodup_In; now left).
    destruct (nodup Key_eq_dec (map key_of (r :: rs))); [contradiction | simpl; lia].
  - rewrite <- (length_map key_of rs). apply NoDup_incl_length.
    + apply NoDup_nodup.
    + intros k Hk. now apply nodup_In in Hk.
Qed.

Lemma records_of_numeric_trades (trades : list RawTrade) :
  Forall numeric trades ->
  exists records,
    List.length records = List.length trades /\
    BTC_Tracking.process_trades trades
    = Ok (DataFrame_of_records BTC_Tracking.labels records) /\
    test_py.process_trades trades = Ok (DataFrame_of_records test_py.labels records).
Proof.
  intros Hnum.
  destruct (for_trades_returns BTC_Tracking.process_trade trades) with (processed := @nil Row)
    as [res Hres].
  { revert Hnum. apply Forall_impl. exact process_trade_returns. }
  apply for_trades_Ok in Hres as [records [_ HF]]. exists records. split; [| split].
  - symmetry. eapply Forall2_length. exact HF.
  - apply process_trades_Ok. eauto.
  - apply test_py_process_trades_Ok. eauto.
Qed.

(** X3. When the fetch returned at least one trade and every quantity and price
    is a numeral, [main] goes through: it prints the header, the rule and
    then between one and five lines, never more lines than there are trades.
    Both files. *)
Theorem main_prints_one_to_five_lines :
  forall (format_row : Row -> string) (trades : list RawTrade),
    trades <> [] ->
    Forall numeric trades ->
    (exists lines,
        BTC_Tracking.main_after_fetch format_row trades
        = Ok (BTC_Tracking.header :: rule :: lines) /\
        (1 <= List.length lines <= 5)%nat /\
        (List.length lines <= List.length trades)%nat) /\
    (exists lines,
        test_py.main_after_fetch format_row trades
        = Ok (test_py.header :: rule :: lines) /\
        (1 <= List.length lines <= 5)%nat /\
        (List.length lines <= List.length trades)%nat).
Proof.
  intros format_row trades Hne Hnum.
  destruct (records_of_numeric_trades trades Hnum) as [records [Hlen [Hbtc Htest]]].
  assert (Hrec : records <> []).
  { intros ->. destruct trades; [congruence | discriminate]. }
  pose proof (distinct_groups_bounds records Hrec) as Hb.
  split.
  - destruct (find_largest_trades_length BTC_Tracking.find_largest_trades "T"
                (DataFrame_of_records BTC_Tracking.labels records) 5)
      as [res [Hres Hl]].
    + left. auto.
    + destruct records; [congruence | split; reflexivity].
    + rewrite rows_DataFrame_of_records in Hl.
      exists (map format_row (rows res)).
      unfold BTC_Tracking.main_after_fetch. rewrite Hbtc. simpl. rewrite Hres. simpl.
      split; [reflexivity |]. rewrite length_map, Hl.
      change (Z.to_nat 5) with 5%nat. lia.
  - destruct (find_largest_trades_length test_py.find_largest_trades "timestamp_us"
                (DataFrame_of_records test_py.labels records) 5)
      as [res [Hres Hl]].
    + right. auto.
    + destruct records; [congruence | split; reflexivity].
    + rewrite rows_DataFrame_of_records in Hl.
      exists (map format_row (rows res)).
      unfold test_py.main_after_fetch. rewrite Htest. simpl. rewrite Hres. simpl.
      split; [reflexivity |]. rewrite length_map, Hl.
      change (Z.to_nat 5) with 5%nat. lia.
Qed.

Lemma sample_trades_not_empty : sample_trades <> [].
Proof. discriminate. Defined.

Lemma main_prints_witness :
  exists lines,
    BTC_Tracking.main_after_fetch (fun r => side_label (side r)) sample_trades
    = Ok (BTC_Tracking.header :: rule :: lines) /\
    (1 <= List.length lines <= 5)%nat /\
    (List.length lines <= List.length sample_trades)%nat.
Proof.
  exact (proj1 (main_prints_one_to_five_lines (fun r => side_label (side r)) sample_trades
                  sample_trades_not_empty sample_trades_numeric)).
Defined.

(** ** [process_trades] on a malformed trade *)

Lemma for_trades_raises (body : RawTrade -> result Row) (good : list RawTrade)
    (bad : RawTrade) (rest : list RawTrade) (e : PyError) :
  Forall (fun trade => exists record, body trade = Ok record) good ->
  body bad = Raise e ->
  forall processed, for_trades body (good ++ bad :: rest) processed = Raise e.
Proof.
  intros Hgood Hbad. induction Hgood as [| trade good [record Hr] _ IH]; intros processed; simpl.
  - now rewrite Hbad.
  - rewrite Hr. simpl. apply IH.
Qed.

Lemma process_trade_raises (trade : RawTrade) :
  ~ numeric trade ->
  exists s,
    (s = raw_q trade \/ s = raw_p trade) /\ PyFloat.parse s = None /\
    BTC_Tracking.process_trade trade = Raise (ValueError s).
Proof.
  intros Hn. unfold BTC_Tracking.process_trade, py_float.
  destruct (PyFloat.parse (raw_q trade)) as [qty |] eqn:Eq.
  - destruct (PyFloat.parse (raw_p trade)) as [price |] eqn:Ep.
    + exfalso. apply Hn. unfold numeric. rewrite Eq, Ep. split; discriminate.
    + exists (raw_p trade). simpl. rewrite Ep. auto.
  - exists (raw_q trade). simpl. auto.
Qed.

(** X4. [process_trades] returns a frame only if [float] reads the quantity and
    the price of every trade.  At the first trade where it does not, the
    function raises the [ValueError] of the string that failed (the quantity
    is read first), and the records built so far are lost.  Both files. *)
Theorem process_trades_raises_on_the_first_malformed_trade :
  forall (good : list RawTrade) (bad : RawTrade) (rest : list RawTrade),
    Forall numeric good ->
    ~ numeric bad ->
    exists s,
      (s = raw_q bad \/ s = raw_p bad) /\ PyFloat.parse s = None /\
      BTC_Tracking.process_trades (good ++ bad :: rest) = Raise (ValueError s) /\
      test_py.process_trades (good ++ bad :: rest) = Raise (ValueError s).
Proof.
  intros good bad rest Hgood Hbad.
  destruct (process_trade_raises bad Hbad) as [s [Hs [Hparse Hraise]]].
  exists s. split; [exact Hs |]. split; [exact Hparse |]. split.
  - unfold BTC_Tracking.process_trades.
    rewrite (for_trades_raises _ good bad rest (ValueError s)); auto.
    revert Hgood. apply Forall_impl. exact process_trade_returns.
  - unfold test_py.process_trades.
    rewrite (for_trades_raises _ good bad rest (ValueError s)); auto.
    + revert Hgood. apply Forall_impl. intros t Ht. rewrite test_py_process_trade.
      now apply process_trade_returns.
    + now rewrite test_py_process_trade.
Qed.

Lemma malformed_trade_not_numeric : ~ numeric malformed_trade.
Proof. intros [_ H]. apply H. vm_compute. reflexivity. Defined.

Lemma process_trades_raises_witness :
  exists s,
    (s = raw_q malformed_trade \/ s = raw_p malformed_trade) /\
    PyFloat.parse s = None /\
    BTC_Tracking.process_trades (sample_trades ++ malformed_trade :: scenario_trades)
    = Raise (ValueError s) /\
    test_py.process_trades (sample_trades ++ malformed_trade :: scenario_trades)
    = Raise (ValueError s).
Proof.
  exact (process_trades_raises_on_the_first_malformed_trade
           sample_trades malformed_trade scenario_trades
           sample_trades_numeric malformed_trade_not_numeric).
Defined.

(** ** [main] after a request that failed *)

(** X5. A request of the fetch loop that raises does not end [main] with an
    empty table: [get_trades] hands the empty list on, and [main] ends in
    the [KeyError] of [find_largest_trades].  Both files. *)
Theorem main_ends_in_KeyError_after_a_request_error :
  forall (format_row : Row -> string) (api : Exchange) (j fuel : nat)
         (params : Params) (trades : list RawTrade) (rc : nat),
    api rc params = RequestError ->
    (j < fuel)%nat ->
    (BTC_Tracking.fetch api j "BTCUSDT" BTC_Tracking.start_time BTC_Tracking.end_time
     = Requesting params trades rc ->
     BTC_Tracking.main format_row api fuel = Some (Raise (KeyError ["T"]))) /\
    (test_py.fetch api j "BTCUSDT" test_py.start_time test_py.end_time
     = Requesting params trades rc ->
     exists labels, test_py.main format_row api fuel = Some (Raise (KeyError labels))).
Proof.
  intros format_row api j fuel params trades rc Herr Hlt. split; intros Hj.
  - unfold BTC_Tracking.main, BTC_Tracking.get_trades. unfold BTC_Tracking.fetch in *.
    rewrite (fetch_fails _ j fuel _ params trades rc Hj); auto.
    unfold BTC_Tracking.loop_body. now rewrite Herr.
  - unfold test_py.main, test_py.get_trades. unfold test_py.fetch in *.
    rewrite (fetch_fails _ j fuel _ params trades rc Hj); auto.
    + eexists. reflexivity.
    + unfold test_py.loop_body. now rewrite Herr.
Qed.

Lemma main_ends_in_KeyError_witness :
  let api := failing_at 0 (serve []) in
  api O (BTC_Tracking.first_params "BTCUSDT" BTC_Tracking.start_time) = RequestError /\
  BTC_Tracking.main (fun r => side_label (side r)) api 1 = Some (Raise (KeyError ["T"])).
Proof.
  intros api. split; [reflexivity |].
  refine (proj1 (main_ends_in_KeyError_after_a_request_error
                   (fun r => side_label (side r)) api 0 1
                   (BTC_Tracking.first_params "BTCUSDT" BTC_Tracking.start_time) [] 0
                   eq_refl _) eq_refl).
  repeat constructor.
Defined.

(** ** What the pagination never does: return a trade twice *)

Lemma last_trade_split (data : list RawTrade) (last : RawTrade) :
  last_trade data = Some last -> exists data', data = data' ++ [last].
Proof.
  induction data as [| t [| t' data] IH]; simpl; intros H.
  - discriminate.
  - injection H as ->. now exists [].
  - destruct (IH H) as [data' E]. exists (t :: data'). simpl. now rewrite <- E.
Qed.

Lemma last_is_greatest (R : RawTrade -> RawTrade -> Prop) (data : list RawTrade)
    (last : RawTrade) :
  StronglySorted R data -> last_trade data = Some last ->
  Forall (fun t => t = last \/ R t last) data.
Proof.
  intros Hs Hl. destruct (last_trade_split _ _ Hl) as [data' ->].
  apply Forall_app. split.
  - apply Forall_forall. intros t Hin. right.
    apply (StronglySorted_across R data' [last] Hs); [exact Hin | now left].
  - constructor; [now left | constructor].
Qed.

(** X6. Paging by id: when the exchange lists every page by ascending id and
    serves nothing below the [fromId] it is asked with, the trades that
    [BTC_Tracking.get_trades] returns are in strictly ascending id order; no
    trade is returned twice. *)
Theorem get_trades_returns_ascending_ids :
  forall (api : Exchange) (fuel : nat) (symbol : string) (start_time end_time : Z)
         (result : list RawTrade),
    honours_fromId api ->
    pages_ascend_by_id api ->
    BTC_Tracking.get_trades api fuel symbol start_time end_time = Some result ->
    StronglySorted (fun t1 t2 => raw_a t1 < raw_a t2) result.
Proof.
  intros api fuel symbol start_time end_time result Hfrom Hasc.
  set (lt_id := fun t1 t2 : RawTrade => raw_a t1 < raw_a t2).
  set (Inv := fun st : Loop =>
         match st with
         | Requesting params trades _ =>
             StronglySorted lt_id trades /\
             (trades <> [] ->
              exists c, fromId params = Some c /\ Forall (fun t => raw_a t < c) trades)
         | Finished trades => StronglySorted lt_id trades
         | Failed => True
         end).
  assert (H : Inv (BTC_Tracking.fetch api fuel symbol start_time end_time)).
  { unfold BTC_Tracking.fetch. apply run_invariant.
    - intros params trades rc [Hs Hc].
      assert (Hdata : forall data, api rc params = Json data ->
                StronglySorted lt_id (trades ++ data)).
      { intros data Hd. apply StronglySorted_app; [exact Hs | now apply (Hasc rc params) |].
        intros x y Hx Hy. destruct Hc as [c [Hc Hlt]]; [intros ->; contradiction |].
        pose proof (Hfrom _ _ _ _ Hd Hc) as Hge. rewrite Forall_forall in Hlt, Hge.
        specialize (Hlt x Hx). specialize (Hge y Hy). unfold lt_id. simpl in *. lia. }
      destruct (loop_body_cases api symbol end_time params trades rc)
        as [[_ ->] | [[_ ->] | [[data [last [Hd [_ [_ ->]]]]] | [data [last [Hd [Hl [_ ->]]]]]]]];
        simpl; auto.
      split; [now apply Hdata |]. intros _. exists (raw_a last + 1). split; [reflexivity |].
      pose proof (last_is_greatest lt_id data last (Hasc _ _ _ Hd) Hl) as Hmax.
      apply Forall_app. split.
      + destruct trades as [| t0 trades0]; [constructor |].
        destruct Hc as [c [Hc Hlt]]; [discriminate |].
        pose proof (Hfrom _ _ _ _ Hd Hc) as Hge. rewrite Forall_forall in Hge.
        specialize (Hge last (last_trade_In _ _ Hl)). simpl in Hge.
        revert Hlt. apply Forall_impl. intros t Ht. lia.
      + revert Hmax. apply Forall_impl. unfold lt_id. intros t [-> | Ht]; lia.
    - simpl. split; [constructor | congruence]. }
  unfold BTC_Tracking.get_trades.
  destruct (BTC_Tracking.fetch api fuel symbol start_time end_time) as [? ? ? | trades |];
    intros E; try discriminate; injection E as <-.
  - apply StronglySorted_filter. exact H.
  - constructor.
Qed.

Lemma sample_trades_ascending :
  StronglySorted (fun t1 t2 => raw_a t1 < raw_a t2 /\ raw_T t1 <= raw_T t2) sample_trades.
Proof.
  repeat constructor; simpl; lia.
Defined.

Lemma serve_pages_ascend_by_id (history : list RawTrade) :
  StronglySorted (fun t1 t2 => raw_a t1 < raw_a t2 /\ raw_T t1 <= raw_T t2) history ->
  pages_ascend_by_id (serve history).
Proof.
  intros Hs i params data Hd. unfold serve in Hd. injection Hd as <-.
  apply StronglySorted_firstn, StronglySorted_filter.
  revert Hs. apply StronglySorted_impl. tauto.
Defined.

Lemma get_trades_ascending_ids_witness :
  honours_fromId (serve sample_trades) /\
  pages_ascend_by_id (serve sample_trades) /\
  BTC_Tracking.get_trades (serve sample_trades) 3 "BTCUSDT" 1000000 1000000
    = Some scenario_trades /\
  StronglySorted (fun t1 t2 => raw_a t1 < raw_a t2) scenario_trades.
Proof.
  assert (H : BTC_Tracking.get_trades (serve sample_trades) 3 "BTCUSDT" 1000000 1000000
              = Some scenario_trades) by (vm_compute; reflexivity).
  split; [apply serve_honours_fromId |].
  split; [apply serve_pages_ascend_by_id, sample_trades_ascending |].
  split; [exact H |].
  exact (get_trades_returns_ascending_ids
           (serve sample_trades) 3 "BTCUSDT" 1000000 1000000 scenario_trades
           (serve_honours_fromId sample_trades)
           (serve_pages_ascend_by_id sample_trades sample_trades_ascending) H).
Defined.

(** X7. Paging by time: when the exchange lists every page by time, without
    repeating a trade, and serves nothing before the [startTime] it is asked
    with, the trades that [test_py.get_trades] returns are in time order
    and no trade is returned twice. *)
Theorem test_py_get_trades_returns_no_trade_twice :
  forall (api : Exchange) (fuel : nat) (symbol : string) (start_time end_time : Z)
         (result : list RawTrade),
    honours_startTime api ->
    pages_ascend_by_time api ->
    test_py.get_trades api fuel symbol start_time end_time = Some result ->
    StronglySorted (fun t1 t2 => raw_T t1 <= raw_T t2) result /\ NoDup result.
Proof.
  intros api fuel symbol start_time end_time result Hstart Hasc.
  set (le_T := fun t1 t2 : RawTrade => raw_T t1 <= raw_T t2).
  set (Inv := fun st : Loop =>
         match st with
         | Requesting params trades _ =>
             StronglySorted le_T trades /\ NoDup trades /\
             exists c, startTime params = Some c /\ Forall (fun t => raw_T t < c) trades
         | Finished trades => StronglySorted le_T trades /\ NoDup trades
         | Failed => True
         end).
  assert (H : Inv (test_py.fetch api fuel symbol start_time end_time)).
  { unfold test_py.fetch. apply run_invariant.
    - intros params trades rc [Hs [Hnd [c [Hc Hlt]]]].
      assert (Hdata : forall data, api rc params = Json data ->
                StronglySorted le_T (trades ++ data) /\ NoDup (trades ++ data)).
      { intros data Hd. destruct (Hasc _ _ _ Hd) as [Hsd Hndd].
        pose proof (Hstart _ _ _ _ Hd Hc) as Hge. rewrite Forall_forall in Hlt, Hge.
        split.
        - apply StronglySorted_app; auto. intros x y Hx Hy.
          specialize (Hlt x Hx). specialize (Hge y Hy). unfold le_T. simpl in *. lia.
        - apply NoDup_app; auto. intros x Hx Hy.
          specialize (Hlt x Hx). specialize (Hge x Hy). simpl in *. lia. }
      destruct (test_py_loop_body_cases api end_time params trades rc)
        as [[_ ->] | [[_ ->] | [[data [last [Hd [_ [_ ->]]]]] | [data [last [Hd [Hl [_ ->]]]]]]]];
        simpl; auto.
      destruct (Hdata data Hd) as [Hs' Hnd']. split; [exact Hs' |]. split; [exact Hnd' |].
      exists (raw_T last + 1). split; [reflexivity |].
      pose proof (last_is_greatest le_T data last (proj1 (Hasc _ _ _ Hd)) Hl) as Hmax.
      pose proof (Hstart _ _ _ _ Hd Hc) as Hge. rewrite Forall_forall in Hge.
      specialize (Hge last (last_trade_In _ _ Hl)). simpl in Hge.
      apply Forall_app. split.
      + revert Hlt. apply Forall_impl. intros t Ht. lia.
      + revert Hmax. apply Forall_impl. unfold le_T. intros t [-> | Ht]; lia.
    - simpl. split; [constructor |]. split; [constructor |].
      exists start_time. split; [reflexivity | constructor]. }
  unfold test_py.get_trades.
  destruct (test_py.fetch api fuel symbol start_time end_time) as [? ? ? | trades |];
    intros E; try discriminate; injection E as <-.
  - exact H.
  - split; constructor.
Qed.

Lemma serve_pages_ascend_by_time (history : list RawTrade) :
  StronglySorted (fun t1 t2 => raw_a t1 < raw_a t2 /\ raw_T t1 <= raw_T t2) history ->
  pages_ascend_by_time (serve history).
Proof.
  intros Hs i params data Hd. unfold serve in Hd. injection Hd as <-.
  assert (Hf : StronglySorted (fun t1 t2 => raw_a t1 < raw_a t2 /\ raw_T t1 <= raw_T t2)
                 (firstn (Z.to_nat (limit params)) (filter (matches params) history)))
    by now apply StronglySorted_firstn, StronglySorted_filter.
  split.
  - revert Hf. apply StronglySorted_impl. tauto.
  - clear Hs. induction Hf as [| t l Hl IH Ht]; constructor; auto.
    intros Hin. rewrite Forall_forall in Ht. specialize (Ht t Hin). lia.
Defined.

Lemma test_py_no_trade_twice_witness :
  honours_startTime (serve sample_trades) /\
  pages_ascend_by_time (serve sample_trades) /\
  test_py.get_trades (serve sample_trades) 3 "BTCUSDT" 1000000 1000000
    = Some scenario_trades /\
  StronglySorted (fun t1 t2 => raw_T t1 <= raw_T t2) scenario_trades /\
  NoDup scenario_trades.
Proof.
  assert (H : test_py.get_trades (serve sample_trades) 3 "BTCUSDT" 1000000 1000000
              = Some scenario_trades) by (vm_compute; reflexivity).
  split; [apply serve_honours_startTime |].
  split; [apply serve_pages_ascend_by_time, sample_trades_ascending |].
  split; [exact H |].
  exact (test_py_get_trades_returns_no_trade_twice
           (serve sample_trades) 3 "BTCUSDT" 1000000 1000000 scenario_trades
           (serve_honours_startTime sample_trades)
           (serve_pages_ascend_by_time sample_trades sample_trades_ascending) H).
Defined.

(** ** Paging by id over a whole history *)

Lemma filter_all {A : Type} (p : A -> bool) (l : list A) :
  Forall (fun x => p x = true) l -> filter p l = l.
Proof.
  induction 1 as [| x l Hx _ IH]; simpl; [reflexivity |]. now rewrite Hx, IH.
Qed.

Lemma filter_none {A : Type} (p : A -> bool) (l : list A) :
  Forall (fun x => p x = false) l -> filter p l = [].
Proof.
  induction 1 as [| x l Hx _ IH]; simpl; [reflexivity |]. now rewrite Hx, IH.
Qed.

(** In a sorted list, what a test keeps is a suffix when the test, once
    true, stays true. *)
Lemma filter_suffix {A : Type} (R : A -> A -> Prop) (p : A -> bool) (l : list A) :
  StronglySorted R l ->
  (forall x y, R x y -> p x = true -> p y = true) ->
  exists pre, l = pre ++ filter p l /\ Forall (fun x => p x = false) pre.
Proof.
  intros Hs Hmono. induction Hs as [| x l Hl IH Hx].
  - exists []. split; [reflexivity | constructor].
  - simpl. destruct (p x) eqn:Px.
    + exists []. split; [| constructor]. simpl. f_equal. symmetry. apply filter_all.
      revert Hx. apply Forall_impl. intros y Hy. now apply (Hmono x y).
    + destruct IH as [pre [E Hpre]]. exists (x :: pre). split.
      * simpl. now rewrite <- E.
      * now constructor.
Qed.

Lemma StronglySorted_suffix {A : Type} (R : A -> A -> Prop) (l1 l2 : list A) :
  StronglySorted R (l1 ++ l2) -> StronglySorted R l2.
Proof.
  induction l1 as [| x l1 IH]; simpl; intros H; [exact H |].
  apply StronglySorted_inv in H as [H _]. now apply IH.
Qed.

Section IdPagination.

Variables (history : list RawTrade) (symbol : string) (end_time : Z).

Let by_id_and_time (t1 t2 : RawTrade) : Prop :=
  raw_a t1 < raw_a t2 /\ raw_T t1 <= raw_T t2.

Hypothesis history_sorted : StronglySorted by_id_and_time history.

(** The page after one that ends with [last]: what follows [last] in the
    history. *)
Lemma next_page_by_id (before : list RawTrade) (last : RawTrade) (after : list RawTrade) :
  history = before ++ last :: after ->
  filter (matches (mkParams symbol None None (Some (raw_a last + 1)) 1000)) history = after.
Proof.
  intros E. pose proof history_sorted as Hs. rewrite E in Hs. rewrite E.
  assert (Hbefore : Forall (fun t => raw_a t < raw_a last) before).
  { apply Forall_forall. intros t Hin.
    apply (StronglySorted_across by_id_and_time before (last :: after) Hs t last Hin).
    now left. }
  assert (Hafter : Forall (fun t => raw_a last < raw_a t) after).
  { apply StronglySorted_middle in Hs. revert Hs. apply Forall_impl. intros t [Ht _].
    exact Ht. }
  rewrite filter_app. rewrite filter_none.
  - simpl. unfold matches at 1. simpl.
    replace (raw_a last + 1 <=? raw_a last) with false by (symmetry; apply Z.leb_gt; lia).
    simpl. apply filter_all. revert Hafter. apply Forall_impl. intros t Ht.
    unfold matches. simpl. rewrite !andb_true_r. apply Z.leb_le. lia.
  - revert Hbefore. apply Forall_impl. intros t Ht. unfold matches. simpl.
    rewrite !andb_true_r. apply Z.leb_gt. lia.
Qed.

Lemma id_pagination (m : nat) :
  forall (remaining before acc : list RawTrade) (params : Params) (rc : nat),
    (List.length remaining <= m)%nat ->
    history = before ++ remaining ->
    filter (matches params) history = remaining ->
    0 < limit params ->
    exists fuel fetched beyond,
      (fuel <= m + 1)%nat /\
      run (BTC_Tracking.loop_body (serve history) symbol end_time) fuel
          (Requesting params acc rc)
      = Finished (acc ++ fetched) /\
      remaining = fetched ++ beyond /\
      Forall (fun t => end_time <= raw_T t) beyond.
Proof.
  induction m as [| m IH]; intros remaining before acc params rc Hlen Hhist Hfilter Hlimit;
    destruct (loop_body_cases (serve history) symbol end_time params acc rc)
      as [[Hd _] | [[Hd Hbody] | [[data [last [Hd [Hl [Hle Hbody]]]]]
                                 | [data [last [Hd [Hl [Hlt Hbody]]]]]]]];
    try discriminate;
    unfold serve in Hd; injection Hd as Hd; rewrite Hfilter in Hd.
  1, 4:
    (exists 1%nat, [], remaining; split; [lia |]; split;
     [simpl; rewrite Hbody, app_nil_r; reflexivity |]; split; [reflexivity |];
     destruct remaining as [| t remaining]; [constructor |];
     destruct (Z.to_nat (limit params)) eqn:En; [lia | discriminate]).
  1, 3:
    (exists 1%nat, data, (skipn (Z.to_nat (limit params)) remaining); split; [lia |];
     split; [simpl; exact Hbody |]; split;
     [rewrite <- Hd; symmetry; apply firstn_skipn |];
     destruct (last_trade_split _ _ Hl) as [data' Edata];
     pose proof history_sorted as Hs; rewrite Hhist in Hs;
     apply StronglySorted_suffix in Hs;
     rewrite <- (firstn_skipn (Z.to_nat (limit params)) remaining), Hd, Edata,
       <- app_assoc in Hs;
     apply StronglySorted_middle in Hs; revert Hs; apply Forall_impl;
     intros t [_ Ht]; lia).
  - exfalso. destruct remaining; [| simpl in Hlen; lia].
    rewrite firstn_nil in Hd. subst data. discriminate.
  - destruct (last_trade_split _ _ Hl) as [data' Edata].
    assert (Esplit : remaining = data ++ skipn (Z.to_nat (limit params)) remaining)
      by (rewrite <- Hd; symmetry; apply firstn_skipn).
    destruct (IH (skipn (Z.to_nat (limit params)) remaining) (before ++ data)
                 (acc ++ data)
                 (mkParams symbol None None (Some (raw_a last + 1)) 1000) (S rc))
      as [fuel [fetched [beyond [Hfuel [Hrun [Hrem Hbeyond]]]]]].
    + assert (List.length data <> 0)%nat by (rewrite Edata, length_app; simpl; lia).
      apply (f_equal (@List.length RawTrade)) in Esplit. rewrite length_app in Esplit. lia.
    + rewrite Hhist, Esplit at 1. now rewrite <- app_assoc.
    + apply (next_page_by_id (before ++ data')).
      rewrite Hhist, Esplit at 1. rewrite Edata, <- !app_assoc. reflexivity.
    + simpl. lia.
    + exists (S fuel), (data ++ fetched), beyond. split; [lia |]. split; [| split].
      * rewrite run_S, Hbody, Hrun, <- app_assoc. reflexivity.
      * rewrite <- app_assoc, <- Hrem. exact Esplit.
      * exact Hbeyond.
Qed.

End IdPagination.

(** Paging by id over a history in ascending id order whose times never
    decrease: the result and the trades of the window it leaves out. *)
Lemma get_trades_by_id_complete_before_end :
  forall (history : list RawTrade) (symbol : string) (start_time end_time : Z),
    StronglySorted (fun t1 t2 => raw_a t1 < raw_a t2 /\ raw_T t1 <= raw_T t2) history ->
    exists result missed,
      (forall fuel,
          (List.length history + 1 <= fuel)%nat ->
          BTC_Tracking.get_trades (serve history) fuel symbol start_time end_time
          = Some result) /\
      filter (in_window start_time end_time) history = result ++ missed /\
      Forall (fun t => raw_T t = end_time) missed.
Proof.
  intros history symbol start_time end_time Hs.
  set (params := BTC_Tracking.first_params symbol start_time).
  destruct (filter_suffix _ (matches params) history Hs) as [before [Hhist Hbefore]].
  { intros x y [_ Hxy]. unfold matches, params. simpl. rewrite !andb_true_r, !Z.leb_le. lia. }
  destruct (id_pagination history symbol end_time Hs
              (List.length (filter (matches params) history))
              (filter (matches params) history) before [] params 0)
    as [fuel0 [fetched [beyond [Hfuel [Hrun [Hrem Hbeyond]]]]]]; auto.
  { unfold params. simpl. lia. }
  exists (filter (in_window start_time end_time) fetched),
         (filter (in_window start_time end_time) beyond).
  split; [| split].
  - intros fuel Hle. unfold BTC_Tracking.get_trades, BTC_Tracking.fetch. fold params.
    rewrite (run_more _ fuel0 fuel).
    + rewrite Hrun. reflexivity.
    + rewrite Hrun. exact I.
    + assert (List.length (filter (matches params) history) <= List.length history)%nat.
      { rewrite Hhist at 2. rewrite length_app. lia. }
      lia.
  - rewrite Hhist at 1. rewrite Hrem, !filter_app. rewrite filter_none; [reflexivity |].
    revert Hbefore. apply Forall_impl. intros t Ht. unfold matches, params in Ht.
    simpl in Ht. rewrite andb_true_r in Ht. apply Z.leb_gt in Ht.
    unfold in_window. apply andb_false_iff. left. apply Z.leb_gt. exact Ht.
  - apply Forall_forall. intros t Hin. apply filter_In in Hin as [Hin Hw].
    apply in_window_spec in Hw. rewrite Forall_forall in Hbeyond.
    specialize (Hbeyond t Hin). simpl in Hbeyond. lia.
Qed.


(** ** Paging by time over a whole history *)

Lemma filter_both {A : Type} (p q pq : A -> bool) (l : list A) :
  Forall (fun x => pq x = (p x && q x)%bool) l ->
  filter pq l = filter q (filter p l).
Proof.
  induction 1 as [| x l Hx _ IH]; simpl; [reflexivity |].
  rewrite Hx. destruct (p x); simpl; [destruct (q x) |]; now rewrite IH.
Qed.

Section TimePagination.

Variables (history : list RawTrade) (end_time : Z).

Hypothesis history_sorted :
  StronglySorted (fun t1 t2 => raw_T t1 < raw_T t2) history.

(** The page after one that ends with [last]: what follows [last] among
    the trades that matched. *)
Lemma next_page_by_time (params : Params) (c : Z) (page' : list RawTrade)
    (last : RawTrade) (after : list RawTrade) :
  fromId params = None ->
  startTime params = Some c ->
  filter (matches params) history = page' ++ last :: after ->
  filter (matches (mkParams (symbol params) (Some (raw_T last + 1)) (endTime params)
                            (fromId params) (limit params))) history
  = after.
Proof.
  intros Hfrom Hstart Hfilter.
  assert (Hs : StronglySorted (fun t1 t2 => raw_T t1 < raw_T t2) (page' ++ last :: after)).
  { rewrite <- Hfilter. now apply StronglySorted_filter. }
  assert (Hc : c <= raw_T last).
  { assert (Hin : In last (filter (matches params) history))
      by (rewrite Hfilter; apply in_or_app; right; now left).
    apply filter_In in Hin as [_ Hm]. unfold matches in Hm. rewrite Hfrom, Hstart in Hm.
    apply andb_true_iff in Hm as [Hm _]. simpl in Hm. now apply Z.leb_le. }
  rewrite (filter_both (matches params) (fun t => raw_T last + 1 <=? raw_T t)).
  - rewrite Hfilter, filter_app. rewrite filter_none.
    + simpl. replace (raw_T last + 1 <=? raw_T last) with false
        by (symmetry; apply Z.leb_gt; lia).
      apply filter_all. apply StronglySorted_middle in Hs. revert Hs. apply Forall_impl.
      intros t Ht. apply Z.leb_le. lia.
    + apply Forall_forall. intros t Hin. apply Z.leb_gt.
      pose proof (StronglySorted_across _ page' (last :: after) Hs t last Hin
                    (or_introl eq_refl)). simpl in *. lia.
  - apply Forall_forall. intros t _. unfold matches. simpl. rewrite Hfrom, Hstart. simpl.
    destruct (endTime params) as [e |];
      destruct (Z.leb_spec c (raw_T t)), (Z.leb_spec (raw_T last + 1) (raw_T t));
      simpl; try reflexivity; try lia;
      try (now rewrite andb_true_r); try (now rewrite andb_false_r);
      destruct (raw_T t <=? e); reflexivity.
Qed.

Lemma time_pagination (m : nat) :
  forall (remaining acc : list RawTrade) (params : Params) (rc : nat) (c : Z),
    (List.length remaining <= m)%nat ->
    filter (matches params) history = remaining ->
    0 < limit params ->
    fromId params = None ->
    startTime params = Some c ->
    exists fuel fetched beyond,
      (fuel <= m + 1)%nat /\
      run (test_py.loop_body (serve history) end_time) fuel (Requesting params acc rc)
      = Finished (acc ++ fetched) /\
      remaining = fetched ++ beyond /\
      Forall (fun t => end_time <= raw_T t) beyond.
Proof.
  induction m as [| m IH]; intros remaining acc params rc c Hlen Hfilter Hlimit Hfrom Hstart;
    destruct (test_py_loop_body_cases (serve history) end_time params acc rc)
      as [[Hd _] | [[Hd Hbody] | [[data [last [Hd [Hl [Hle Hbody]]]]]
                                 | [data [last [Hd [Hl [Hlt Hbody]]]]]]]];
    try discriminate;
    unfold serve in Hd; injection Hd as Hd; rewrite Hfilter in Hd.
  1, 4:
    (exists 1%nat, [], remaining; split; [lia |]; split;
     [simpl; rewrite Hbody, app_nil_r; reflexivity |]; split; [reflexivity |];
     destruct remaining as [| t remaining]; [constructor |];
     destruct (Z.to_nat (limit params)) eqn:En; [lia | discriminate]).
  1, 3:
    (exists 1%nat, data, (skipn (Z.to_nat (limit params)) remaining); split; [lia |];
     split; [simpl; exact Hbody |]; split;
     [rewrite <- Hd; symmetry; apply firstn_skipn |];
     destruct (last_trade_split _ _ Hl) as [data' Edata];
     pose proof (StronglySorted_filter _ (matches params) _ history_sorted) as Hs;
     rewrite Hfilter in Hs;
     rewrite <- (firstn_skipn (Z.to_nat (limit params)) remaining), Hd, Edata,
       <- app_assoc in Hs;
     apply StronglySorted_middle in Hs; revert Hs; apply Forall_impl;
     intros t Ht; lia).
  - exfalso. destruct remaining; [| simpl in Hlen; lia].
    rewrite firstn_nil in Hd. subst data. discriminate.
  - destruct (last_trade_split _ _ Hl) as [data' Edata].
    assert (Esplit : remaining = data ++ skipn (Z.to_nat (limit params)) remaining)
      by (rewrite <- Hd; symmetry; apply firstn_skipn).
    destruct (IH (skipn (Z.to_nat (limit params)) remaining) (acc ++ data)
                 (mkParams (symbol params) (Some (raw_T last + 1)) (endTime params)
                           (fromId params) (limit params))
                 (S rc) (raw_T last + 1))
      as [fuel [fetched [beyond [Hfuel [Hrun [Hrem Hbeyond]]]]]]; auto.
    + assert (List.length data <> 0)%nat by (rewrite Edata, length_app; simpl; lia).
      apply (f_equal (@List.length RawTrade)) in Esplit. rewrite length_app in Esplit. lia.
    + apply (next_page_by_time params c data'); auto.
      rewrite Hfilter, Esplit at 1. rewrite Edata, <- app_assoc. reflexivity.
    + exists (S fuel), (data ++ fetched), beyond. split; [lia |]. split; [| split].
      * rewrite run_S, Hbody, Hrun, <- app_assoc. reflexivity.
      * rewrite <- app_assoc, <- Hrem. exact Esplit.
      * exact Hbeyond.
Qed.

End TimePagination.

(** Paging by time over a history whose times strictly increase: the result
    and the trades of the window it leaves out. *)
Lemma get_trades_by_time_complete_before_end (history : list RawTrade) (symbol : string)
    (start_time end_time : Z) :
  StronglySorted (fun t1 t2 => raw_T t1 < raw_T t2) history ->
  exists result missed,
    (forall fuel,
        (List.length history + 1 <= fuel)%nat ->
        test_py.get_trades (serve history) fuel symbol start_time end_time = Some result) /\
    filter (in_window start_time end_time) history = result ++ missed /\
    Forall (fun t => raw_T t = end_time) missed.
Proof.
  intros Hs.
  set (params := test_py.first_params symbol start_time end_time).
  assert (Ewin : filter (matches params) history
                 = filter (in_window start_time end_time) history).
  { apply filter_ext. intros t. reflexivity. }
  destruct (time_pagination history end_time Hs
              (List.length (filter (matches params) history))
              (filter (matches params) history) [] params 0 start_time)
    as [fuel0 [fetched [beyond [Hfuel [Hrun [Hrem Hbeyond]]]]]]; auto.
  { unfold params. simpl. lia. }
  exists fetched, beyond. split; [| split].
  - intros fuel Hle. unfold test_py.get_trades, test_py.fetch. fold params.
    rewrite (run_more _ fuel0 fuel).
    + rewrite Hrun. reflexivity.
    + rewrite Hrun. exact I.
    + pose proof (filter_length_le (matches params) history). lia.
  - rewrite <- Ewin. exact Hrem.
  - apply Forall_forall. intros t Hin.
    assert (Hw : In t (filter (in_window start_time end_time) history)).
    { rewrite <- Ewin, Hrem. apply in_or_app. now right. }
    apply filter_In in Hw as [_ Hw]. apply in_window_spec in Hw.
    rewrite Forall_forall in Hbeyond. specialize (Hbeyond t Hin). simpl in Hbeyond. lia.
Qed.

(** ** The window and the trades returned *)

Lemma crowded_sorted (n a : nat) :
  StronglySorted (fun t1 t2 => raw_a t1 < raw_a t2 /\ raw_T t1 <= raw_T t2)
                 (map crowded_trade (seq a n)).
Proof.
  revert a. induction n as [| n IH]; intros a; simpl; constructor.
  - apply IH.
  - apply Forall_forall. intros t Hin. apply in_map_iff in Hin as [i [<- Hi]].
    apply in_seq in Hi. simpl. lia.
Qed.

Lemma crowded_last_is_missing : ~ In (crowded_trade 1001) (map crowded_trade (seq 1 1000)).
Proof.
  intros Hin. apply in_map_iff in Hin as [i [E Hi]]. apply in_seq in Hi.
  injection E as E. lia.
Qed.

Lemma crowded_last_is_there : In (crowded_trade 1001) crowded_history.
Proof.
  unfold crowded_history. apply in_map. apply in_seq. lia.
Qed.


Lemma StronglySorted_NoDup {A : Type} (R : A -> A -> Prop) (l : list A) :
  (forall x, ~ R x x) -> StronglySorted R l -> NoDup l.
Proof.
  intros Hirr. induction 1 as [| x l Hl IH Hx]; constructor; auto.
  intros Hin. rewrite Forall_forall in Hx. exact (Hirr x (Hx x Hin)).
Qed.

Lemma get_trades_in_window (api : Exchange) (fuel : nat) (symbol : string)
    (start_time end_time : Z) (result : list RawTrade) :
  BTC_Tracking.get_trades api fuel symbol start_time end_time = Some result ->
  Forall (fun t => start_time <= raw_T t <= end_time) result.
Proof.
  unfold BTC_Tracking.get_trades.
  destruct (BTC_Tracking.fetch api fuel symbol start_time end_time) as [? ? ? | trades |];
    intros H; try discriminate; injection H as <-.
  - apply Forall_forall. intros t Hin. apply filter_In in Hin as [_ Hin].
    now apply in_window_spec.
  - constructor.
Qed.

Lemma test_py_get_trades_in_window (api : Exchange) (fuel : nat) (symbol : string)
    (start_time end_time : Z) (result : list RawTrade) :
  honours_startTime api -> honours_endTime api ->
  test_py.get_trades api fuel symbol start_time end_time = Some result ->
  Forall (fun t => start_time <= raw_T t <= end_time) result.
Proof.
  intros Hstart Hend. unfold test_py.get_trades.
  destruct (test_py.fetch api fuel symbol start_time end_time) as [? ? ? | trades |] eqn:Hf;
    intros H; try discriminate; injection H as <-.
  - exact (test_py_fetch_in_window api symbol start_time end_time Hstart Hend fuel trades Hf).
  - constructor.
Qed.


